(** * Terraform resources for Container App Environments and Synapse
      Workspace AAD Admins: a shallow embedding of their CRUD functions

    Sources embedded:
    - internal/services/containerapps/container_app_environment_resource.go
    - internal/services/synapse/synapse_workspace_aad_admin_resource.go

    The Go functions are written in a small state-and-exit monad over a
    [World] that holds the remote service, the log of the requests sent to
    it and the Terraform [ResourceData].  A function ends by [return] or by
    a run-time panic.

    What the two files import has no body here.  The SDK clients, the
    identifier parsers and formatters, [location.Normalize], [tags.Expand],
    [tags.Flatten] and the framework's Decode and Encode are Section
    variables, and each lemma states what it needs of them.  The one-line
    helpers (pointer helpers, the not-found tests, [MarkAsGone], [SetID])
    are written out; their comments say so.

    The file has two parts: the definitions (the embedding, the properties
    of a run, an in-memory remote with scenarios), then the lemmas. *)

From Stdlib Require Import ZArith List Lia Ascii.
From stdpp Require Import base strings gmap.
Import ListNotations.

Local Open Scope Z_scope.
Local Open Scope string_scope.

(** ** Go's [time] constants *)

Module time.
(** A [time.Duration] is an int64 count of nanoseconds. *)
Definition Duration : Type := Z.
Definition Nanosecond : Duration := 1.
Definition Microsecond : Duration := 1000 * Nanosecond.
Definition Millisecond : Duration := 1000 * Microsecond.
Definition Second : Duration := 1000 * Millisecond.
Definition Minute : Duration := 60 * Second.

Definition int64_max : Z := 2 ^ 63 - 1.
End time.

(** ** Errors

    [fmt.Errorf] is kept symbolic: the format string as written in the
    source and the arguments in order.  Errors coming out of a collaborator
    are [External]. *)

#[local] Set Warnings "-register-all".

Inductive fmt_arg (E : Type) : Type :=
| ArgString (s : string)
| ArgId (kind : string) (segments : list string)
| ArgError (err : option E).
Arguments ArgString {E} s.
Arguments ArgId {E} kind segments.
Arguments ArgError {E} err.

Inductive error : Type :=
| External (origin : string) (msg : string)
| Errorf (format : string) (args : list (fmt_arg error))
| ImportAsExistsError (resourceType : string) (id : string).

(** How a Go function leaves: [return err] or a run-time panic. *)
Inductive exit : Type :=
| Return (err : option error)
| Panic (msg : string).

Definition nil_dereference : string :=
  "runtime error: invalid memory address or nil pointer dereference".

(** ** HTTP responses *)

Module http.
Record Response : Type := { StatusCode : Z }.
Definition StatusNotFound : Z := 404.
End http.

Module response.
(** Modelled from the spec: [response.WasNotFound] belongs to
    go-azure-helpers and has no body in the embedded files; a response is
    "not found" when it is present and carries status 404. *)
Definition WasNotFound (resp : option http.Response) : bool :=
  match resp with
  | Some r => Z.eqb (http.StatusCode r) http.StatusNotFound
  | None => false
  end.
End response.

Module utils.
(** Modelled from the spec: the pointer helpers of the [utils] package have
    no body in the embedded files.  A Go pointer is an [option]; [String]
    and [Bool] take the address of their argument, the [Normalize] helpers
    are the null checks of the field flattening. *)
Definition String (s : string) : option string := Some s.
Definition Bool (b : bool) : option bool := Some b.
Definition NormalizeNilableString (p : option string) : string :=
  match p with Some s => s | None => "" end.
Definition NormaliseNilableBool (p : option bool) : bool :=
  match p with Some b => b | None => false end.

(** Modelled from the spec: [utils.ResponseWasNotFound] takes an
    [autorest.Response], a struct around a [*http.Response]. *)
Definition ResponseWasNotFound (resp : option http.Response) : bool :=
  match resp with
  | Some r => Z.eqb (http.StatusCode r) http.StatusNotFound
  | None => false
  end.
End utils.

(** ** Terraform's ResourceData *)

(** An [interface{}] holding a primitive. *)
Inductive any : Type :=
| AnyString (s : string)
| AnyBool (b : bool).

Inductive attr : Type :=
| Prim (v : any)
| Map (m : gmap string any).

#[global] Instance any_eq_dec : EqDecision any.
Proof. solve_decision. Defined.
#[global] Instance attr_eq_dec : EqDecision attr.
Proof. solve_decision. Defined.

Module pluginsdk.
(** [Id] is the serialized identifier, [attrs] what [Get] reads and [Set]
    writes, [prior] the values of the last stored state, against which
    [HasChange] compares. *)
Record ResourceData : Type := {
  Id : string;
  attrs : gmap string attr;
  prior : gmap string attr
}.

Definition SetId (id : string) (d : ResourceData) : ResourceData :=
  {| Id := id; attrs := attrs d; prior := prior d |}.

Definition Get (key : string) (d : ResourceData) : option attr :=
  attrs d !! key.

(** [d.Set(key, v)] with [v] a string. *)
Definition Set_ (key : string) (v : string) (d : ResourceData) : ResourceData :=
  {| Id := Id d;
     attrs := <[key := Prim (AnyString v)]> (attrs d);
     prior := prior d |}.

(** [d.Set(key, p)] with [p] a [*string]: a nil pointer stores the empty
    string. *)
Definition Set_ptr (key : string) (p : option string) (d : ResourceData)
  : ResourceData :=
  Set_ key (utils.NormalizeNilableString p) d.

Definition HasChange (key : string) (d : ResourceData) : bool :=
  bool_decide (prior d !! key ≠ attrs d !! key).

Record ResourceTimeout : Type := {
  Create : option time.Duration;
  Read : option time.Duration;
  Update : option time.Duration;
  Delete : option time.Duration
}.

(** Modelled from the spec: [pluginsdk.DefaultTimeout] has no body in the
    embedded files; it returns a pointer to the duration it is given. *)
Definition DefaultTimeout (tx : time.Duration) : option time.Duration :=
  Some tx.
End pluginsdk.

(** ** Types of the SDK packages the resources use

    Only the fields the two source files touch are modelled.  A Go pointer
    is an [option], [None] being nil. *)

Module systemdata.
Record SystemData : Type := {
  CreatedAt : string;
  CreatedBy : string;
  CreatedByType : string;
  LastModifiedAt : string;
  LastModifiedBy : string;
  LastModifiedbyType : string
}.
End systemdata.

Module managedenvironments.
Record ManagedEnvironmentId : Type := {
  SubscriptionId : string;
  ResourceGroupName : string;
  EnvironmentName : string
}.

Definition NewManagedEnvironmentID (subscriptionId resourceGroupName environmentName : string)
  : ManagedEnvironmentId :=
  {| SubscriptionId := subscriptionId;
     ResourceGroupName := resourceGroupName;
     EnvironmentName := environmentName |}.

Record VnetConfiguration : Type := {
  DockerBridgeCidr : option string;
  InfrastructureSubnetId : option string;
  Internal : option bool;
  PlatformReservedCidr : option string;
  PlatformReservedDnsIP : option string
}.

Record LogAnalyticsConfiguration : Type := {
  CustomerId : option string;
  SharedKey : option string
}.

Record AppLogsConfiguration : Type := {
  Destination : option string;
  LogAnalyticsConfiguration_ : option LogAnalyticsConfiguration
}.

Record ManagedEnvironmentProperties : Type := {
  AppLogsConfiguration_ : option AppLogsConfiguration;
  DefaultDomain : option string;
  StaticIP : option string;
  VnetConfiguration_ : option VnetConfiguration
}.

Record ManagedEnvironment : Type := {
  Location : string;
  Name : option string;
  Properties : option ManagedEnvironmentProperties;
  SystemData : option systemdata.SystemData;
  Tags : option (gmap string string)
}.

Record GetOperationResponse : Type := {
  HttpResponse : option http.Response;
  Model : option ManagedEnvironment
}.

(** The composite literal [VnetConfiguration{}]: every field nil. *)
Definition VnetConfiguration_zero : VnetConfiguration :=
  {| DockerBridgeCidr := None; InfrastructureSubnetId := None; Internal := None;
     PlatformReservedCidr := None; PlatformReservedDnsIP := None |}.

(** The three methods of the SDK client the resource calls, over a remote
    service of state [S]. *)
Record ManagedEnvironmentsClient (S : Type) : Type := {
  Get : ManagedEnvironmentId -> S -> (GetOperationResponse * option error) * S;
  CreateOrUpdateThenPoll : ManagedEnvironmentId -> ManagedEnvironment -> S -> option error * S;
  DeleteThenPoll : ManagedEnvironmentId -> S -> option error * S
}.
Arguments Get {S} _ _ _.
Arguments CreateOrUpdateThenPoll {S} _ _ _ _.
Arguments DeleteThenPoll {S} _ _ _.
End managedenvironments.

Module operationalinsights.
Record WorkspaceProperties : Type := { CustomerID : option string }.
Record Workspace : Type := { WorkspaceProperties_ : option WorkspaceProperties }.
Record SharedKeys : Type := { PrimarySharedKey : option string }.

Record WorkspacesClient (S : Type) : Type := {
  Get : string -> string -> S -> (Workspace * option error) * S
}.
Arguments Get {S} _ _ _ _.

Record SharedKeysClient (S : Type) : Type := {
  GetSharedKeys : string -> string -> S -> (SharedKeys * option error) * S
}.
Arguments GetSharedKeys {S} _ _ _ _.
End operationalinsights.

Module loganalyticsParse.
Record LogAnalyticsWorkspaceId : Type := {
  SubscriptionId : string;
  ResourceGroup : string;
  WorkspaceName : string
}.
End loganalyticsParse.

Module synapse_sdk.
Record AadAdminProperties : Type := {
  TenantID : option string;
  Login : option string;
  AdministratorType : option string;
  Sid : option string
}.

(** [Response] is the embedded [autorest.Response], a struct around a
    [*http.Response]. *)
Record WorkspaceAadAdminInfo : Type := {
  Response : option http.Response;
  AadAdminProperties_ : option AadAdminProperties
}.

(** [Future] is the handle of a long-running operation. *)
Record WorkspaceAadAdminsClient (S Future : Type) : Type := {
  CreateOrUpdate : string -> string -> WorkspaceAadAdminInfo -> S -> (Future * option error) * S;
  Get : string -> string -> S -> (WorkspaceAadAdminInfo * option error) * S;
  Delete : string -> string -> S -> (Future * option error) * S;
  WaitForCompletionRef : Future -> S -> option error * S
}.
Arguments CreateOrUpdate {S Future} _ _ _ _ _.
Arguments Get {S Future} _ _ _ _.
Arguments Delete {S Future} _ _ _ _.
Arguments WaitForCompletionRef {S Future} _ _ _.
End synapse_sdk.

(** ** The world a resource function runs in *)

(** One entry per request sent to the remote management API. *)
Inductive Call : Type :=
| ManagedEnvironments_Get (id : managedenvironments.ManagedEnvironmentId)
| ManagedEnvironments_CreateOrUpdateThenPoll
    (id : managedenvironments.ManagedEnvironmentId)
    (input : managedenvironments.ManagedEnvironment)
| ManagedEnvironments_DeleteThenPoll (id : managedenvironments.ManagedEnvironmentId)
| Workspaces_Get (resourceGroup workspaceName : string)
| SharedKeys_GetSharedKeys (resourceGroup workspaceName : string)
| WorkspaceAadAdmins_CreateOrUpdate (resourceGroup workspaceName : string)
    (info : synapse_sdk.WorkspaceAadAdminInfo)
| WorkspaceAadAdmins_Get (resourceGroup workspaceName : string)
| WorkspaceAadAdmins_Delete (resourceGroup workspaceName : string)
| WorkspaceAadAdmins_WaitForCompletionRef.

(** What the log keeps of a request: the call, the error it came back with
    and whether its response was a "not found". *)
Record entry : Type := {
  call : Call;
  err : option error;
  not_found : bool
}.

Record World (S : Type) : Type := {
  remote : S;
  calls : list entry;
  ResourceData : pluginsdk.ResourceData
}.
Arguments remote {S} _.
Arguments calls {S} _.
Arguments ResourceData {S} _.

(** A statement either goes on with a value or leaves the function. *)
Inductive step (A : Type) : Type :=
| Next (a : A)
| Leave (e : exit).
Arguments Next {A} a.
Arguments Leave {A} e.

Definition M (S A : Type) : Type := World S -> step A * World S.

(** A Go function of signature [func(...) error]. *)
Definition GoFunc (S : Type) : Type := World S -> exit * World S.

Section Monad.
Context {S : Type}.

Definition ret {A} (a : A) : M S A := fun w => (Next a, w).

Definition bind {A B} (m : M S A) (k : A -> M S B) : M S B :=
  fun w => match m w with
           | (Next a, w') => k a w'
           | (Leave e, w') => (Leave e, w')
           end.

(** [return err] *)
Definition return_ {A} (err : option error) : M S A :=
  fun w => (Leave (Return err), w).

Definition panic {A} (msg : string) : M S A :=
  fun w => (Leave (Panic msg), w).

(** [*p] *)
Definition deref {A} (p : option A) : M S A :=
  match p with
  | Some a => ret a
  | None => panic nil_dereference
  end.

(** [if cond { body }] where [body] may leave *)
Definition when (cond : bool) (body : M S unit) : M S unit :=
  if cond then body else ret tt.

Definition skip : M S unit := ret tt.

(** A request to the remote service, logged in [calls]; [observe] reads
    the error and the not-found status off the reply. *)
Definition request_gen {R} (c : Call) (observe : R -> option error * bool)
    (f : S -> R * S) : M S R :=
  fun w => let '(r, s') := f (remote w) in
           (Next r,
            {| remote := s';
               calls := calls w ++ [{| call := c; err := fst (observe r);
                                       not_found := snd (observe r) |}];
               ResourceData := ResourceData w |}).

(** A method returning [(result, error)]. *)
Definition request {R} (c : Call) (f : S -> (R * option error) * S)
  : M S (R * option error) :=
  request_gen c (fun r => (snd r, false)) f.

(** A method returning only an [error]. *)
Definition request_ (c : Call) (f : S -> option error * S) : M S (option error) :=
  request_gen c (fun r => (r, false)) f.

(** A [Get], whose reply carries the HTTP response. *)
Definition request_get {R} (c : Call) (resp : R -> option http.Response)
    (f : S -> (R * option error) * S) : M S (R * option error) :=
  request_gen c (fun r => (snd r, response.WasNotFound (resp (fst r)))) f.

Definition get_data : M S pluginsdk.ResourceData :=
  fun w => (Next (ResourceData w), w).

Definition put_data (d : pluginsdk.ResourceData) : M S unit :=
  fun w => (Next tt, {| remote := remote w; calls := calls w; ResourceData := d |}).

(** The body of a function always ends in a [return]. *)
Definition func (body : M S Empty_set) : GoFunc S :=
  fun w => match body w with
           | (Next a, _) => match a with end
           | (Leave e, w') => (e, w')
           end.

(** Calling a function from inside another: a panic propagates. *)
Definition invoke (f : GoFunc S) : M S (option error) :=
  fun w => match f w with
           | (Return err, w') => (Next err, w')
           | (Panic msg, w') => (Leave (Panic msg), w')
           end.
End Monad.

#[global] Instance M_bind {S} : MBind (M S) := fun A B k m => bind m k.
#[global] Instance M_ret {S} : MRet (M S) := fun A a => ret a.

Definition is_nil {A} (p : option A) : bool :=
  match p with Some _ => false | None => true end.

Definition not_nil {A} (p : option A) : bool := negb (is_nil p).

(** ** The typed-resource framework ([internal/sdk]) *)

Module sdk.
Record ResourceFunc (S : Type) : Type := {
  Timeout : time.Duration;
  Func : GoFunc S
}.
Arguments Func {S} _.
Arguments Timeout {S} _.

(** The interface [sdk.ResourceWithUpdate], as far as the resource's own
    file implements it with code. *)
Class ResourceWithUpdate (S R : Type) : Type := {
  ResourceType : R -> string;
  Create : R -> ResourceFunc S;
  Read : R -> ResourceFunc S;
  Delete : R -> ResourceFunc S;
  Update : R -> ResourceFunc S
}.

Section MetaData.
Context {S : Type}.

(** Modelled from the spec: [ResourceMetaData.MarkAsGone] has no body in
    the embedded files; the resource-gone condition removes the resource
    from state, which for a [ResourceData] is an empty [Id], and is not an
    error. *)
Definition MarkAsGone : M S (option error) :=
  d ← get_data; put_data (pluginsdk.SetId "" d);; mret None.

(** Modelled from the spec: [ResourceMetaData.ResourceRequiresImport] has
    no body in the embedded files; the import-required condition is an
    error naming the resource type and the identifier found. *)
Definition ResourceRequiresImport (resourceType : string) (id : string)
  : option error :=
  Some (ImportAsExistsError resourceType id).

(** Modelled from the spec: [ResourceMetaData.SetID] stores the
    serialized identifier. *)
Definition SetID (id : string) : M S unit :=
  d ← get_data; put_data (pluginsdk.SetId id d).

(** [metadata.ResourceData.Get(key).(string)]: the zero value when the
    key is unset, a panic of the type assertion when it is no string. *)
Definition Get_string (key : string) : M S string :=
  d ← get_data;
  match pluginsdk.Get key d with
  | None => mret ""
  | Some (Prim (AnyString v)) => mret v
  | Some _ => panic "interface conversion: interface {} is not string"
  end.
End MetaData.
End sdk.

(** Was the resource removed from state? *)
Definition gone {S} (w : World S) : Prop := pluginsdk.Id (ResourceData w) = "".

(** ** container_app_environment_resource.go *)

Module containerapps.
Import managedenvironments.

Inductive ContainerAppEnvironmentResource : Type := ContainerAppEnvironmentResource_ .

Record ContainerAppEnvironmentModel : Type := {
  Name : string;
  ResourceGroup : string;
  Location : string;
  LogAnalyticsWorkspaceId : string;
  InfrastructureSubnetId : string;
  InternalLoadBalancerEnabled : bool;
  Tags : gmap string any;

  DefaultDomain : string;
  DockerBridgeCidr : string;
  PlatformReservedCidr : string;
  PlatformReservedDnsIP : string;
  StaticIP : string;

  CreatedAt : string;
  CreatedBy : string;
  CreatedByType : string;
  LastModifiedAt : string;
  LastModifiedBy : string;
  LastModifiedByType : string
}.

(** [var state ContainerAppEnvironmentModel]: Go's zero value. *)
Definition zero : ContainerAppEnvironmentModel :=
  {| Name := ""; ResourceGroup := ""; Location := ""; LogAnalyticsWorkspaceId := "";
     InfrastructureSubnetId := ""; InternalLoadBalancerEnabled := false; Tags := ∅;
     DefaultDomain := ""; DockerBridgeCidr := ""; PlatformReservedCidr := "";
     PlatformReservedDnsIP := ""; StaticIP := "";
     CreatedAt := ""; CreatedBy := ""; CreatedByType := "";
     LastModifiedAt := ""; LastModifiedBy := ""; LastModifiedByType := "" |}.

(** An assignment [state.F = v] to one field of the model. *)
Inductive assignment : Type :=
| Name_ (v : string)
| ResourceGroup_ (v : string)
| Location_ (v : string)
| LogAnalyticsWorkspaceId_ (v : string)
| InfrastructureSubnetId_ (v : string)
| InternalLoadBalancerEnabled_ (v : bool)
| Tags_ (v : gmap string any)
| DefaultDomain_ (v : string)
| DockerBridgeCidr_ (v : string)
| PlatformReservedCidr_ (v : string)
| PlatformReservedDnsIP_ (v : string)
| StaticIP_ (v : string)
| CreatedAt_ (v : string)
| CreatedBy_ (v : string)
| CreatedByType_ (v : string)
| LastModifiedAt_ (v : string)
| LastModifiedBy_ (v : string)
| LastModifiedByType_ (v : string).

Definition assign (state : ContainerAppEnvironmentModel) (a : assignment)
  : ContainerAppEnvironmentModel :=
  {| Name := match a with Name_ v => v | _ => Name state end;
     ResourceGroup := match a with ResourceGroup_ v => v | _ => ResourceGroup state end;
     Location := match a with Location_ v => v | _ => Location state end;
     LogAnalyticsWorkspaceId :=
       match a with LogAnalyticsWorkspaceId_ v => v | _ => LogAnalyticsWorkspaceId state end;
     InfrastructureSubnetId :=
       match a with InfrastructureSubnetId_ v => v | _ => InfrastructureSubnetId state end;
     InternalLoadBalancerEnabled :=
       match a with
       | InternalLoadBalancerEnabled_ v => v
       | _ => InternalLoadBalancerEnabled state
       end;
     Tags := match a with Tags_ v => v | _ => Tags state end;
     DefaultDomain := match a with DefaultDomain_ v => v | _ => DefaultDomain state end;
     DockerBridgeCidr := match a with DockerBridgeCidr_ v => v | _ => DockerBridgeCidr state end;
     PlatformReservedCidr :=
       match a with PlatformReservedCidr_ v => v | _ => PlatformReservedCidr state end;
     PlatformReservedDnsIP :=
       match a with PlatformReservedDnsIP_ v => v | _ => PlatformReservedDnsIP state end;
     StaticIP := match a with StaticIP_ v => v | _ => StaticIP state end;
     CreatedAt := match a with CreatedAt_ v => v | _ => CreatedAt state end;
     CreatedBy := match a with CreatedBy_ v => v | _ => CreatedBy state end;
     CreatedByType := match a with CreatedByType_ v => v | _ => CreatedByType state end;
     LastModifiedAt := match a with LastModifiedAt_ v => v | _ => LastModifiedAt state end;
     LastModifiedBy := match a with LastModifiedBy_ v => v | _ => LastModifiedBy state end;
     LastModifiedByType :=
       match a with LastModifiedByType_ v => v | _ => LastModifiedByType state end |}.

Notation "state <~ a" := (assign state a) (at level 50, left associativity).

Definition ResourceType (r : ContainerAppEnvironmentResource) : string :=
  "azurerm_container_app_environment".

(** How an identifier is printed into an error message. *)
Definition fmt_id (id : ManagedEnvironmentId) : fmt_arg error :=
  ArgId "Managed Environment"
    [SubscriptionId id; ResourceGroupName id; EnvironmentName id].

Definition fmt_logAnalyticsId (id : loganalyticsParse.LogAnalyticsWorkspaceId)
  : fmt_arg error :=
  ArgId "Log Analytics Workspace"
    [loganalyticsParse.SubscriptionId id; loganalyticsParse.ResourceGroup id;
     loganalyticsParse.WorkspaceName id].

(** [existing.Model.Tags = tags] *)
Definition with_Tags (tags : option (gmap string string)) (model : ManagedEnvironment)
  : ManagedEnvironment :=
  {| managedenvironments.Location := managedenvironments.Location model;
     managedenvironments.Name := managedenvironments.Name model;
     Properties := Properties model;
     SystemData := SystemData model;
     managedenvironments.Tags := tags |}.

(** [m.Properties = props] and [props.VnetConfiguration = vnet] *)
Definition with_Properties (props : option ManagedEnvironmentProperties)
    (model : ManagedEnvironment) : ManagedEnvironment :=
  {| managedenvironments.Location := managedenvironments.Location model;
     managedenvironments.Name := managedenvironments.Name model;
     Properties := props;
     SystemData := SystemData model;
     managedenvironments.Tags := managedenvironments.Tags model |}.

Definition with_VnetConfiguration (vnet : option VnetConfiguration)
    (props : ManagedEnvironmentProperties) : ManagedEnvironmentProperties :=
  {| AppLogsConfiguration_ := AppLogsConfiguration_ props;
     managedenvironments.DefaultDomain := managedenvironments.DefaultDomain props;
     managedenvironments.StaticIP := managedenvironments.StaticIP props;
     VnetConfiguration_ := vnet |}.

Definition with_InfrastructureSubnetId (v : option string) (vnet : VnetConfiguration)
  : VnetConfiguration :=
  {| managedenvironments.DockerBridgeCidr := managedenvironments.DockerBridgeCidr vnet;
     managedenvironments.InfrastructureSubnetId := v;
     Internal := Internal vnet;
     managedenvironments.PlatformReservedCidr := managedenvironments.PlatformReservedCidr vnet;
     managedenvironments.PlatformReservedDnsIP := managedenvironments.PlatformReservedDnsIP vnet |}.

Definition with_Internal (v : option bool) (vnet : VnetConfiguration) : VnetConfiguration :=
  {| managedenvironments.DockerBridgeCidr := managedenvironments.DockerBridgeCidr vnet;
     managedenvironments.InfrastructureSubnetId := managedenvironments.InfrastructureSubnetId vnet;
     Internal := v;
     managedenvironments.PlatformReservedCidr := managedenvironments.PlatformReservedCidr vnet;
     managedenvironments.PlatformReservedDnsIP := managedenvironments.PlatformReservedDnsIP vnet |}.

Section Resource.
(** The remote management API and the clients of [metadata.Client]. *)
Context {S : Type}.
Variable client : ManagedEnvironmentsClient S.
Variable logAnalyticsClient : operationalinsights.WorkspacesClient S.
Variable sharedKeyClient : operationalinsights.SharedKeysClient S.
Variable subscriptionId : string.

(** Collaborators from other packages: identifiers, locations, tags and
    the reflection-based Decode and Encode of the framework. *)
Variable ID : ManagedEnvironmentId -> string.
Variable ParseManagedEnvironmentID : string -> error + ManagedEnvironmentId.
Variable LogAnalyticsWorkspaceID
  : string -> error + loganalyticsParse.LogAnalyticsWorkspaceId.
Variable location_Normalize : string -> string.
Variable tags_Expand : gmap string any -> option (gmap string string).
Variable tags_Flatten : option (gmap string string) -> gmap string any.
Variable metadata_Decode
  : pluginsdk.ResourceData -> error + ContainerAppEnvironmentModel.
Variable metadata_Encode
  : ContainerAppEnvironmentModel -> pluginsdk.ResourceData ->
    option error * pluginsdk.ResourceData.

Definition Decode : M S (error + ContainerAppEnvironmentModel) :=
  d ← get_data; mret (metadata_Decode d).

Definition Encode (state : ContainerAppEnvironmentModel) : M S (option error) :=
  d ← get_data;
  let '(err, d') := metadata_Encode state d in
  put_data d';; mret err.

Definition Parse_Id : M S (error + ManagedEnvironmentId) :=
  d ← get_data; mret (ParseManagedEnvironmentID (pluginsdk.Id d)).

(** Lines 215-229: the composite literal sent to the remote create. *)
Definition Create_literal (containerAppEnvironment : ContainerAppEnvironmentModel)
    (customerID primarySharedKey : option string) : ManagedEnvironment :=
  {| managedenvironments.Location := Location containerAppEnvironment;
     managedenvironments.Name := utils.String (Name containerAppEnvironment);
     Properties := Some
       {| AppLogsConfiguration_ := Some
            {| Destination := utils.String "log-analytics";
               LogAnalyticsConfiguration_ := Some
                 {| CustomerId := customerID; SharedKey := primarySharedKey |} |};
          managedenvironments.DefaultDomain := None;
          managedenvironments.StaticIP := None;
          VnetConfiguration_ := Some VnetConfiguration_zero |};
     SystemData := None;
     managedenvironments.Tags := tags_Expand (Tags containerAppEnvironment) |}.

(** [managedEnvironment.Properties.VnetConfiguration.F = v] *)
Definition assign_vnet (f : VnetConfiguration -> VnetConfiguration)
    (managedEnvironment : ManagedEnvironment) : M S ManagedEnvironment :=
  props ← deref (Properties managedEnvironment);
  vnet ← deref (VnetConfiguration_ props);
  mret (with_Properties (Some (with_VnetConfiguration (Some (f vnet)) props))
          managedEnvironment).

Definition Create_Func : GoFunc S := func (
  r ← Decode;
  containerAppEnvironment ← match r with
                            | inl err => return_ (Some err)
                            | inr m => mret m
                            end;
  let id := NewManagedEnvironmentID subscriptionId
              (ResourceGroup containerAppEnvironment) (Name containerAppEnvironment) in

  '(existing, err) ← request_get (ManagedEnvironments_Get id) HttpResponse (Get client id);
  when (not_nil err)
    (when (negb (response.WasNotFound (HttpResponse existing)))
       (return_ (Some (Errorf "checking for presence of existing %s: %+v"
                         [fmt_id id; ArgError err]))));;

  when (negb (response.WasNotFound (HttpResponse existing)))
    (return_ (sdk.ResourceRequiresImport
                (ResourceType ContainerAppEnvironmentResource_) (ID id)));;

  logAnalyticsId ← match LogAnalyticsWorkspaceID
                           (LogAnalyticsWorkspaceId containerAppEnvironment) with
                   | inl err => return_ (Some err)
                   | inr i => mret i
                   end;

  '(workspace, err) ←
    request (Workspaces_Get (loganalyticsParse.ResourceGroup logAnalyticsId)
               (loganalyticsParse.WorkspaceName logAnalyticsId))
      (operationalinsights.Get logAnalyticsClient
         (loganalyticsParse.ResourceGroup logAnalyticsId)
         (loganalyticsParse.WorkspaceName logAnalyticsId));
  when (not_nil err || is_nil (operationalinsights.WorkspaceProperties_ workspace))
    (return_ (Some (Errorf "retrieving %s for %s: %+v"
                      [fmt_logAnalyticsId logAnalyticsId; fmt_id id; ArgError err])));;

  workspaceProperties ← deref (operationalinsights.WorkspaceProperties_ workspace);
  when (is_nil (operationalinsights.CustomerID workspaceProperties))
    (return_ (Some (Errorf "reading customer ID from %s"
                      [fmt_logAnalyticsId logAnalyticsId])));;

  '(keys, err) ←
    request (SharedKeys_GetSharedKeys (loganalyticsParse.ResourceGroup logAnalyticsId)
               (loganalyticsParse.WorkspaceName logAnalyticsId))
      (operationalinsights.GetSharedKeys sharedKeyClient
         (loganalyticsParse.ResourceGroup logAnalyticsId)
         (loganalyticsParse.WorkspaceName logAnalyticsId));
  when (not_nil err)
    (return_ (Some (Errorf "retrieving access keys to %s for %s: %+v"
                      [fmt_logAnalyticsId logAnalyticsId; fmt_id id; ArgError err])));;

  when (is_nil (operationalinsights.PrimarySharedKey keys))
    (return_ (Some (Errorf "reading shared key for %s in %s"
                      [fmt_logAnalyticsId logAnalyticsId; fmt_id id])));;

  let managedEnvironment :=
    Create_literal containerAppEnvironment
      (operationalinsights.CustomerID workspaceProperties)
      (operationalinsights.PrimarySharedKey keys) in

  managedEnvironment ←
    (if bool_decide (InfrastructureSubnetId containerAppEnvironment ≠ "")
     then
       m ← assign_vnet (with_InfrastructureSubnetId
                          (utils.String (InfrastructureSubnetId containerAppEnvironment)))
             managedEnvironment;
       assign_vnet (with_Internal
                      (utils.Bool (InternalLoadBalancerEnabled containerAppEnvironment))) m
     else mret managedEnvironment);

  err ← request_ (ManagedEnvironments_CreateOrUpdateThenPoll id managedEnvironment)
          (CreateOrUpdateThenPoll client id managedEnvironment);
  when (not_nil err)
    (return_ (Some (Errorf "creating %s: %+v" [fmt_id id; ArgError err])));;

  sdk.SetID (ID id);;
  return_ None).

Definition Create (r : ContainerAppEnvironmentResource) : sdk.ResourceFunc S :=
  {| sdk.Timeout := 30 * time.Minute; sdk.Func := Create_Func |}.

(** Lines 264-293: the flattening of the remote response. *)
Definition Read_flatten (id : ManagedEnvironmentId) (existing : GetOperationResponse)
  : ContainerAppEnvironmentModel :=
  let state := zero in
  match Model existing with
  | Some model =>
      let state := state <~ Name_ (EnvironmentName id) in
      let state := state <~ ResourceGroup_ (ResourceGroupName id) in
      let state := state <~ Location_ (location_Normalize (managedenvironments.Location model)) in
      let state := state <~ Tags_ (tags_Flatten (managedenvironments.Tags model)) in
      let state :=
        match Properties model with
        | Some props =>
            let state :=
              match VnetConfiguration_ props with
              | Some vnet =>
                  state
                    <~ InfrastructureSubnetId_
                         (utils.NormalizeNilableString
                            (managedenvironments.InfrastructureSubnetId vnet))
                    <~ InternalLoadBalancerEnabled_
                         (utils.NormaliseNilableBool (Internal vnet))
                    <~ DockerBridgeCidr_
                         (utils.NormalizeNilableString
                            (managedenvironments.DockerBridgeCidr vnet))
                    <~ PlatformReservedCidr_
                         (utils.NormalizeNilableString
                            (managedenvironments.PlatformReservedCidr vnet))
                    <~ PlatformReservedDnsIP_
                         (utils.NormalizeNilableString
                            (managedenvironments.PlatformReservedDnsIP vnet))
              | None => state
              end in
            state
              <~ StaticIP_ (utils.NormalizeNilableString (managedenvironments.StaticIP props))
              <~ DefaultDomain_
                   (utils.NormalizeNilableString (managedenvironments.DefaultDomain props))
        | None => state
        end in
      match SystemData model with
      | Some sysData =>
          state
            <~ CreatedAt_ (systemdata.CreatedAt sysData)
            <~ CreatedBy_ (systemdata.CreatedBy sysData)
            <~ CreatedByType_ (systemdata.CreatedByType sysData)
            <~ LastModifiedAt_ (systemdata.LastModifiedAt sysData)
            <~ LastModifiedBy_ (systemdata.LastModifiedBy sysData)
            <~ LastModifiedByType_ (systemdata.LastModifiedbyType sysData)
      | None => state
      end
  | None => state
  end.

(** Lines 295-298: the workspace id is read from the configuration. *)
Definition Read_workspace (v : string) (state : ContainerAppEnvironmentModel)
  : ContainerAppEnvironmentModel :=
  if bool_decide (v ≠ "") then state <~ LogAnalyticsWorkspaceId_ v else state.

Definition Read_Func : GoFunc S := func (
  r ← Parse_Id;
  id ← match r with
       | inl err => return_ (Some err)
       | inr id => mret id
       end;

  '(existing, err) ← request_get (ManagedEnvironments_Get id) HttpResponse (Get client id);
  when (not_nil err)
    (when (response.WasNotFound (HttpResponse existing))
       (e ← sdk.MarkAsGone; return_ e);;
     return_ (Some (Errorf "reading %s: %+v" [fmt_id id; ArgError err])));;

  let state := Read_flatten id existing in

  v ← sdk.Get_string "log_analytics_workspace_id";
  let state := Read_workspace v state in

  err ← Encode state;
  when (not_nil err)
    (return_ (Some (Errorf "encoding: %+v" [ArgError err])));;

  return_ None).

Definition Read (r : ContainerAppEnvironmentResource) : sdk.ResourceFunc S :=
  {| sdk.Timeout := 5 * time.Minute; sdk.Func := Read_Func |}.

Definition Delete_Func : GoFunc S := func (
  r ← Parse_Id;
  id ← match r with
       | inl err => return_ (Some err)
       | inr id => mret id
       end;

  err ← request_ (ManagedEnvironments_DeleteThenPoll id) (DeleteThenPoll client id);
  when (not_nil err)
    (return_ (Some (Errorf "deleting %s: %+v" [fmt_id id; ArgError err])));;

  return_ None).

Definition Delete (r : ContainerAppEnvironmentResource) : sdk.ResourceFunc S :=
  {| sdk.Timeout := 30 * time.Minute; sdk.Func := Delete_Func |}.

Definition Update_Func : GoFunc S := func (
  r ← Parse_Id;
  id ← match r with
       | inl err => return_ (Some err)
       | inr id => mret id
       end;

  r ← Decode;
  state ← match r with
          | inl err => return_ (Some (Errorf "decoding: %+v" [ArgError (Some err)]))
          | inr m => mret m
          end;

  '(existing, err) ← request_get (ManagedEnvironments_Get id) HttpResponse (Get client id);
  when (not_nil err)
    (return_ (Some (Errorf "reading %s: %+v" [fmt_id id; ArgError err])));;

  d ← get_data;
  existing ←
    (if pluginsdk.HasChange "tags" d
     then
       model ← deref (Model existing);
       mret {| HttpResponse := HttpResponse existing;
               Model := Some (with_Tags (tags_Expand (Tags state)) model) |}
     else mret existing);

  model ← deref (Model existing);
  err ← request_ (ManagedEnvironments_CreateOrUpdateThenPoll id model)
          (CreateOrUpdateThenPoll client id model);
  when (not_nil err)
    (return_ (Some (Errorf "updating %s: %+v" [fmt_id id; ArgError err])));;

  return_ None).

Definition Update (r : ContainerAppEnvironmentResource) : sdk.ResourceFunc S :=
  {| sdk.Timeout := 30 * time.Minute; sdk.Func := Update_Func |}.

(** [var _ sdk.ResourceWithUpdate = ContainerAppEnvironmentResource{}] *)
#[local] Instance resource_with_update
  : sdk.ResourceWithUpdate S ContainerAppEnvironmentResource :=
  {| sdk.ResourceType := ResourceType;
     sdk.Create := Create;
     sdk.Read := Read;
     sdk.Delete := Delete;
     sdk.Update := Update |}.
End Resource.
End containerapps.

(** ** The untyped resources of the plugin SDK *)

Module schema.
Record Resource (S : Type) : Type := {
  Create : GoFunc S;
  Read : GoFunc S;
  Update : GoFunc S;
  Delete : GoFunc S;
  Timeouts : option pluginsdk.ResourceTimeout
}.
Arguments Create {S} _.
Arguments Read {S} _.
Arguments Update {S} _.
Arguments Delete {S} _.
Arguments Timeouts {S} _.
End schema.

(** ** synapse_workspace_aad_admin_resource.go *)

Module parse.
Record WorkspaceId : Type := {
  SubscriptionId : string;
  ResourceGroup : string;
  Name : string
}.

Record WorkspaceAADAdminId : Type := {
  AdminSubscriptionId : string;
  AdminResourceGroup : string;
  WorkspaceName : string;
  AdministratorName : string
}.

Definition NewWorkspaceID (subscriptionId resourceGroup name : string) : WorkspaceId :=
  {| SubscriptionId := subscriptionId; ResourceGroup := resourceGroup; Name := name |}.

Definition NewWorkspaceAADAdminID (subscriptionId resourceGroup workspaceName
    administratorName : string) : WorkspaceAADAdminId :=
  {| AdminSubscriptionId := subscriptionId; AdminResourceGroup := resourceGroup;
     WorkspaceName := workspaceName; AdministratorName := administratorName |}.
End parse.

Module synapse.
Import synapse_sdk.

Section Resource.
Context {S Future : Type}.
Variable client : WorkspaceAadAdminsClient S Future.

(** The identifier helpers of [internal/services/synapse/parse]. *)
Variable WorkspaceID : string -> error + parse.WorkspaceId.
Variable WorkspaceId_ID : parse.WorkspaceId -> string.
Variable WorkspaceAADAdminID : string -> error + parse.WorkspaceAADAdminId.
Variable WorkspaceAADAdminId_ID : parse.WorkspaceAADAdminId -> string.

(** [d.Set(key, v)] *)
Definition d_Set (key : string) (v : string) : M S unit :=
  d ← get_data; put_data (pluginsdk.Set_ key v d).

Definition d_Set_ptr (key : string) (p : option string) : M S unit :=
  d ← get_data; put_data (pluginsdk.Set_ptr key p d).

Definition resourceSynapseWorkspaceAADAdminRead : GoFunc S := func (
  d ← get_data;
  id ← match WorkspaceAADAdminID (pluginsdk.Id d) with
       | inl err => return_ (Some err)
       | inr id => mret id
       end;

  '(aadAdmin, err) ←
    request_get (WorkspaceAadAdmins_Get (parse.AdminResourceGroup id) (parse.WorkspaceName id))
      Response (Get client (parse.AdminResourceGroup id) (parse.WorkspaceName id));
  when (not_nil err)
    (when (negb (utils.ResponseWasNotFound (Response aadAdmin)))
       (return_ (Some (Errorf
          "retrieving Synapse Workspace %q AAD Admin (Resource Group %q): %+v"
          [ArgString (parse.WorkspaceName id); ArgString (parse.AdminResourceGroup id);
           ArgError err]))));;

  let workspaceID := parse.NewWorkspaceID (parse.AdminSubscriptionId id)
                       (parse.AdminResourceGroup id) (parse.WorkspaceName id) in

  d_Set "synapse_workspace_id" (WorkspaceId_ID workspaceID);;
  props ← deref (AadAdminProperties_ aadAdmin);
  d_Set_ptr "login" (Login props);;
  props ← deref (AadAdminProperties_ aadAdmin);
  d_Set_ptr "object_id" (Sid props);;
  props ← deref (AadAdminProperties_ aadAdmin);
  d_Set_ptr "tenant_id" (TenantID props);;

  return_ None).

Definition resourceSynapseWorkspaceAADAdminCreateUpdate : GoFunc S := func (
  v ← sdk.Get_string "synapse_workspace_id";
  workspaceId ← match WorkspaceID v with
                | inl err => return_ (Some err)
                | inr id => mret id
                end;
  let workspaceName := parse.Name workspaceId in
  let workspaceResourceGroup := parse.ResourceGroup workspaceId in

  tenant_id ← sdk.Get_string "tenant_id";
  login ← sdk.Get_string "login";
  object_id ← sdk.Get_string "object_id";
  let aadAdmin :=
    {| Response := None;
       AadAdminProperties_ := Some
         {| TenantID := utils.String tenant_id;
            Login := utils.String login;
            AdministratorType := utils.String "ActiveDirectory";
            Sid := utils.String object_id |} |} in

  '(workspaceAadAdminsCreateOrUpdateFuture, err) ←
    request (WorkspaceAadAdmins_CreateOrUpdate workspaceResourceGroup workspaceName aadAdmin)
      (CreateOrUpdate client workspaceResourceGroup workspaceName aadAdmin);
  when (not_nil err)
    (return_ (Some (Errorf
       "updating Synapse Workspace %q AAD Admin (Resource Group %q): %+v"
       [ArgString workspaceName; ArgString workspaceResourceGroup; ArgError err])));;

  err ← request_ WorkspaceAadAdmins_WaitForCompletionRef
          (WaitForCompletionRef client workspaceAadAdminsCreateOrUpdateFuture);
  when (not_nil err)
    (return_ (Some (Errorf
       "waiting on updating for Synapse Workspace %q AAD Admin (Resource Group %q): %+v"
       [ArgString workspaceName; ArgString workspaceResourceGroup; ArgError err])));;

  let id := parse.NewWorkspaceAADAdminID (parse.SubscriptionId workspaceId)
              (parse.ResourceGroup workspaceId) (parse.Name workspaceId) "activeDirectory" in
  sdk.SetID (WorkspaceAADAdminId_ID id);;

  e ← invoke resourceSynapseWorkspaceAADAdminRead;
  return_ e).

Definition resourceSynapseWorkspaceAADAdminDelete : GoFunc S := func (
  d ← get_data;
  id ← match WorkspaceAADAdminID (pluginsdk.Id d) with
       | inl err => return_ (Some err)
       | inr id => mret id
       end;

  '(future, err) ←
    request (WorkspaceAadAdmins_Delete (parse.AdminResourceGroup id) (parse.WorkspaceName id))
      (Delete client (parse.AdminResourceGroup id) (parse.WorkspaceName id));
  when (not_nil err)
    (return_ (Some (Errorf
       "setting empty Synapse Workspace %q AAD Admin (Resource Group %q): %+v"
       [ArgString (parse.WorkspaceName id); ArgString (parse.AdminResourceGroup id);
        ArgError err])));;

  err ← request_ WorkspaceAadAdmins_WaitForCompletionRef (WaitForCompletionRef client future);
  when (not_nil err)
    (return_ (Some (Errorf
       "waiting on setting empty Synapse Workspace %q AAD Admin (Resource Group %q): %+v"
       [ArgString (parse.WorkspaceName id); ArgString (parse.AdminResourceGroup id);
        ArgError err])));;

  return_ None).

Definition resourceSynapseWorkspaceAADAdmin : schema.Resource S :=
  {| schema.Create := resourceSynapseWorkspaceAADAdminCreateUpdate;
     schema.Read := resourceSynapseWorkspaceAADAdminRead;
     schema.Update := resourceSynapseWorkspaceAADAdminCreateUpdate;
     schema.Delete := resourceSynapseWorkspaceAADAdminDelete;
     schema.Timeouts := Some
       {| pluginsdk.Create := pluginsdk.DefaultTimeout (30 * time.Minute);
          pluginsdk.Read := pluginsdk.DefaultTimeout (5 * time.Minute);
          pluginsdk.Update := pluginsdk.DefaultTimeout (30 * time.Minute);
          pluginsdk.Delete := pluginsdk.DefaultTimeout (30 * time.Minute) |} |}.
End Resource.
End synapse.

(** ** Properties of a run, read off the log of requests *)

(** The requests a function sent, given the worlds before and after it. *)
Definition new_calls {S} (w w' : World S) : list entry :=
  drop (length (calls w)) (calls w').

(** An argument that identifies the resource: an identifier or a name. *)
Definition is_identity (a : fmt_arg error) : bool :=
  match a with
  | ArgId _ _ | ArgString _ => true
  | ArgError _ => false
  end.

(** The message starts with words of its own, naming what was being done. *)
Definition names_operation (format : string) : bool :=
  match format with
  | EmptyString => false
  | String c _ => negb (Ascii.eqb c "%"%char)
  end.

(** [e'] is [fmt.Errorf("<operation> <identity>...: %+v", ..., cause)]. *)
Definition wrapped_with_context (e' cause : error) : Prop :=
  ∃ format ctx,
    e' = Errorf format (ctx ++ [ArgError (Some cause)])
    ∧ names_operation format = true
    ∧ existsb is_identity ctx = true.

(** After a failed request nothing more is sent, unless the failure was the
    "not found" of a lookup. *)
Fixpoint no_request_after_failure (l : list entry) : bool :=
  match l with
  | [] => true
  | x :: rest =>
      (is_nil (head rest) || is_nil (err x) || not_found x)
      && no_request_after_failure rest
  end.

(** The error discipline of one function: no request is sent twice, a failed
    request ends the requests, and the failure of the last request comes
    back wrapped with context (or was a tolerated "not found"). *)
Definition surfaces_remote_errors {S} (f : GoFunc S) : Prop :=
  ∀ w out w', f w = (out, w') →
    NoDup (call <$> new_calls w w')
    ∧ no_request_after_failure (new_calls w w') = true
    ∧ ∀ x e, last (new_calls w w') = Some x → err x = Some e →
        (∃ e', out = Return (Some e') ∧ wrapped_with_context e' e)
        ∨ not_found x = true.

(** The configuration holds the string [v] at [key]; an unset key reads as
    the zero value. *)
Definition configured_string (key : string) (d : pluginsdk.ResourceData) (v : string)
  : Prop :=
  match pluginsdk.Get key d with
  | None => v = ""
  | Some (Prim (AnyString s)) => v = s
  | Some _ => False
  end.

(** The world after a request that left the remote in [s]. *)
Definition after_request {S} (w : World S) (s : S) (x : entry) : World S :=
  {| remote := s; calls := calls w ++ [x]; ResourceData := ResourceData w |}.

(** ** An in-memory management API

    A remote service that stores what it is sent and returns it unchanged,
    with the collaborators written out (identifier formats, tag and location
    helpers, Decode and Encode by the [tfschema] tags).  The general lemmas
    below hold for any remote; this one instantiates them. *)

Module inmemory.
Import managedenvironments.

Record Remote : Type := {
  environments : gmap (string * string * string) ManagedEnvironment;
  workspaces : gmap (string * string) operationalinsights.Workspace;
  sharedKeys : gmap (string * string) operationalinsights.SharedKeys;
  aadAdmins : gmap (string * string) synapse_sdk.AadAdminProperties;
  (** workspaces whose admin record exists without properties *)
  bareAdmins : gset (string * string)
}.

Definition key (id : ManagedEnvironmentId) : string * string * string :=
  (SubscriptionId id, ResourceGroupName id, EnvironmentName id).

Definition ok : option http.Response := Some {| http.StatusCode := 200 |}.
Definition notFound : option http.Response := Some {| http.StatusCode := 404 |}.

Definition with_environments (f : gmap (string * string * string) ManagedEnvironment ->
                                  gmap (string * string * string) ManagedEnvironment)
    (s : Remote) : Remote :=
  {| environments := f (environments s); workspaces := workspaces s;
     sharedKeys := sharedKeys s; aadAdmins := aadAdmins s; bareAdmins := bareAdmins s |}.

Definition with_aadAdmins (f : gmap (string * string) synapse_sdk.AadAdminProperties ->
                               gmap (string * string) synapse_sdk.AadAdminProperties)
    (s : Remote) : Remote :=
  {| environments := environments s; workspaces := workspaces s;
     sharedKeys := sharedKeys s; aadAdmins := f (aadAdmins s); bareAdmins := bareAdmins s |}.

Definition client : ManagedEnvironmentsClient Remote :=
  {| Get := fun id s =>
       match environments s !! key id with
       | Some m => (({| HttpResponse := ok; Model := Some m |}, None), s)
       | None =>
           (({| HttpResponse := notFound; Model := None |},
             Some (External "managedenvironments" "404 Not Found")), s)
       end;
     CreateOrUpdateThenPoll := fun id m s =>
       if bool_decide (Location m = "")
       then (Some (External "managedenvironments" "400 LocationRequired"), s)
       else (None, with_environments <[key id := m]> s);
     DeleteThenPoll := fun id s => (None, with_environments (delete (key id)) s) |}.

Definition logAnalyticsClient : operationalinsights.WorkspacesClient Remote :=
  {| operationalinsights.Get := fun rg name s =>
       match workspaces s !! (rg, name) with
       | Some ws => ((ws, None), s)
       | None =>
           (({| operationalinsights.WorkspaceProperties_ := None |},
             Some (External "workspaces" "404 Not Found")), s)
       end |}.

Definition sharedKeyClient : operationalinsights.SharedKeysClient Remote :=
  {| operationalinsights.GetSharedKeys := fun rg name s =>
       match sharedKeys s !! (rg, name) with
       | Some k => ((k, None), s)
       | None =>
           (({| operationalinsights.PrimarySharedKey := None |},
             Some (External "sharedkeys" "404 Not Found")), s)
       end |}.

Definition aadAdminsClient : synapse_sdk.WorkspaceAadAdminsClient Remote unit :=
  {| synapse_sdk.CreateOrUpdate := fun rg ws info s =>
       match synapse_sdk.AadAdminProperties_ info with
       | Some props => ((tt, None), with_aadAdmins <[(rg, ws) := props]> s)
       | None => ((tt, Some (External "workspaceaadadmins" "400 Bad Request")), s)
       end;
     synapse_sdk.Get := fun rg ws s =>
       match aadAdmins s !! (rg, ws) with
       | Some props =>
           (({| synapse_sdk.Response := ok; synapse_sdk.AadAdminProperties_ := Some props |},
             None), s)
       | None =>
           if bool_decide ((rg, ws) ∈ bareAdmins s)
           then (({| synapse_sdk.Response := ok; synapse_sdk.AadAdminProperties_ := None |},
                  None), s)
           else (({| synapse_sdk.Response := notFound;
                     synapse_sdk.AadAdminProperties_ := None |},
                  Some (External "workspaceaadadmins" "404 Not Found")), s)
       end;
     synapse_sdk.Delete := fun rg ws s => ((tt, None), with_aadAdmins (delete (rg, ws)) s);
     synapse_sdk.WaitForCompletionRef := fun _ s => (None, s) |}.

(** Splitting an identifier at its slashes. *)
Fixpoint segments (s : string) : list string :=
  match s with
  | EmptyString => [""]
  | String c rest =>
      if Ascii.eqb c "/"%char then "" :: segments rest
      else match segments rest with
           | [] => [String c ""]
           | p :: ps => String c p :: ps
           end
  end.

Definition ID (id : ManagedEnvironmentId) : string :=
  "/subscriptions/" +:+ SubscriptionId id +:+ "/resourceGroups/" +:+ ResourceGroupName id
  +:+ "/providers/Microsoft.App/managedEnvironments/" +:+ EnvironmentName id.

Definition ParseManagedEnvironmentID (input : string) : error + ManagedEnvironmentId :=
  match segments input with
  | [""; "subscriptions"; sub; "resourceGroups"; rg; "providers"; "Microsoft.App";
     "managedEnvironments"; name] => inr (NewManagedEnvironmentID sub rg name)
  | _ => inl (External "managedenvironments" "parsing the Managed Environment ID")
  end.

Definition LogAnalyticsWorkspaceID (input : string)
  : error + loganalyticsParse.LogAnalyticsWorkspaceId :=
  match segments input with
  | [""; "subscriptions"; sub; "resourceGroups"; rg; "providers";
     "Microsoft.OperationalInsights"; "workspaces"; name] =>
      inr {| loganalyticsParse.SubscriptionId := sub;
             loganalyticsParse.ResourceGroup := rg;
             loganalyticsParse.WorkspaceName := name |}
  | _ => inl (External "loganalytics" "parsing the Log Analytics Workspace ID")
  end.

Definition WorkspaceId_ID (id : parse.WorkspaceId) : string :=
  "/subscriptions/" +:+ parse.SubscriptionId id +:+ "/resourceGroups/"
  +:+ parse.ResourceGroup id +:+ "/providers/Microsoft.Synapse/workspaces/"
  +:+ parse.Name id.

Definition WorkspaceID (input : string) : error + parse.WorkspaceId :=
  match segments input with
  | [""; "subscriptions"; sub; "resourceGroups"; rg; "providers"; "Microsoft.Synapse";
     "workspaces"; name] => inr (parse.NewWorkspaceID sub rg name)
  | _ => inl (External "synapse" "parsing the Workspace ID")
  end.

Definition WorkspaceAADAdminId_ID (id : parse.WorkspaceAADAdminId) : string :=
  "/subscriptions/" +:+ parse.AdminSubscriptionId id +:+ "/resourceGroups/"
  +:+ parse.AdminResourceGroup id +:+ "/providers/Microsoft.Synapse/workspaces/"
  +:+ parse.WorkspaceName id +:+ "/administrators/" +:+ parse.AdministratorName id.

Definition WorkspaceAADAdminID (input : string) : error + parse.WorkspaceAADAdminId :=
  match segments input with
  | [""; "subscriptions"; sub; "resourceGroups"; rg; "providers"; "Microsoft.Synapse";
     "workspaces"; name; "administrators"; admin] =>
      inr (parse.NewWorkspaceAADAdminID sub rg name admin)
  | _ => inl (External "synapse" "parsing the Workspace AAD Admin ID")
  end.

(** Lower case, spaces removed. *)
Fixpoint location_Normalize (input : string) : string :=
  match input with
  | EmptyString => EmptyString
  | String c rest =>
      let n := nat_of_ascii c in
      if Ascii.eqb c " "%char then location_Normalize rest
      else if ((65 <=? n) && (n <=? 90))%nat
           then String (ascii_of_nat (n + 32)) (location_Normalize rest)
           else String c (location_Normalize rest)
  end.

Definition tags_Expand (input : gmap string any) : option (gmap string string) :=
  Some ((fun v => match v with AnyString s => s | AnyBool _ => "" end) <$> input).

Definition tags_Flatten (input : option (gmap string string)) : gmap string any :=
  match input with
  | Some m => AnyString <$> m
  | None => ∅
  end.

Definition attr_string (key : string) (d : pluginsdk.ResourceData) : option string :=
  match pluginsdk.Get key d with
  | None => Some ""
  | Some (Prim (AnyString s)) => Some s
  | Some _ => None
  end.

Definition attr_bool (key : string) (d : pluginsdk.ResourceData) : option bool :=
  match pluginsdk.Get key d with
  | None => Some false
  | Some (Prim (AnyBool b)) => Some b
  | Some _ => None
  end.

Definition attr_map (key : string) (d : pluginsdk.ResourceData) : option (gmap string any) :=
  match pluginsdk.Get key d with
  | None => Some ∅
  | Some (Map m) => Some m
  | Some _ => None
  end.

(** Decode by the [tfschema] tags of the model. *)
Definition metadata_Decode (d : pluginsdk.ResourceData)
  : error + containerapps.ContainerAppEnvironmentModel :=
  let decoded :=
    name ← attr_string "name" d;
    resource_group_name ← attr_string "resource_group_name" d;
    location ← attr_string "location" d;
    log_analytics_workspace_id ← attr_string "log_analytics_workspace_id" d;
    infrastructure_subnet_id ← attr_string "infrastructure_subnet_id" d;
    internal_load_balancer_enabled ← attr_bool "internal_load_balancer_enabled" d;
    tags ← attr_map "tags" d;
    default_domain ← attr_string "default_domain" d;
    docker_bridge_cidr ← attr_string "docker_bridge_cidr" d;
    platform_reserved_cidr ← attr_string "platform_reserved_cidr" d;
    platform_reserved_dns_ip ← attr_string "platform_reserved_dns_ip" d;
    static_ip ← attr_string "static_ip" d;
    created_at ← attr_string "created_at" d;
    created_by ← attr_string "created_by" d;
    created_by_type ← attr_string "created_by_type" d;
    last_modified_at ← attr_string "last_modified_at" d;
    last_modified_by ← attr_string "last_modified_by" d;
    last_modified_by_type ← attr_string "last_modified_by_type" d;
    Some {| containerapps.Name := name;
            containerapps.ResourceGroup := resource_group_name;
            containerapps.Location := location;
            containerapps.LogAnalyticsWorkspaceId := log_analytics_workspace_id;
            containerapps.InfrastructureSubnetId := infrastructure_subnet_id;
            containerapps.InternalLoadBalancerEnabled := internal_load_balancer_enabled;
            containerapps.Tags := tags;
            containerapps.DefaultDomain := default_domain;
            containerapps.DockerBridgeCidr := docker_bridge_cidr;
            containerapps.PlatformReservedCidr := platform_reserved_cidr;
            containerapps.PlatformReservedDnsIP := platform_reserved_dns_ip;
            containerapps.StaticIP := static_ip;
            containerapps.CreatedAt := created_at;
            containerapps.CreatedBy := created_by;
            containerapps.CreatedByType := created_by_type;
            containerapps.LastModifiedAt := last_modified_at;
            containerapps.LastModifiedBy := last_modified_by;
            containerapps.LastModifiedByType := last_modified_by_type |} in
  match decoded with
  | Some m => inr m
  | None => inl (External "sdk" "decode: type mismatch")
  end.

Definition str (s : string) : attr := Prim (AnyString s).

(** Encode by the [tfschema] tags of the model. *)
Definition metadata_Encode (state : containerapps.ContainerAppEnvironmentModel)
    (d : pluginsdk.ResourceData) : option error * pluginsdk.ResourceData :=
  (None,
   {| pluginsdk.Id := pluginsdk.Id d;
      pluginsdk.attrs :=
        <["name" := str (containerapps.Name state)]>
        (<["resource_group_name" := str (containerapps.ResourceGroup state)]>
        (<["location" := str (containerapps.Location state)]>
        (<["log_analytics_workspace_id" := str (containerapps.LogAnalyticsWorkspaceId state)]>
        (<["infrastructure_subnet_id" := str (containerapps.InfrastructureSubnetId state)]>
        (<["internal_load_balancer_enabled" :=
             Prim (AnyBool (containerapps.InternalLoadBalancerEnabled state))]>
        (<["tags" := Map (containerapps.Tags state)]>
        (<["default_domain" := str (containerapps.DefaultDomain state)]>
        (<["docker_bridge_cidr" := str (containerapps.DockerBridgeCidr state)]>
        (<["platform_reserved_cidr" := str (containerapps.PlatformReservedCidr state)]>
        (<["platform_reserved_dns_ip" := str (containerapps.PlatformReservedDnsIP state)]>
        (<["static_ip" := str (containerapps.StaticIP state)]>
        (<["created_at" := str (containerapps.CreatedAt state)]>
        (<["created_by" := str (containerapps.CreatedBy state)]>
        (<["created_by_type" := str (containerapps.CreatedByType state)]>
        (<["last_modified_at" := str (containerapps.LastModifiedAt state)]>
        (<["last_modified_by" := str (containerapps.LastModifiedBy state)]>
        (<["last_modified_by_type" := str (containerapps.LastModifiedByType state)]>
           (pluginsdk.attrs d))))))))))))))))));
      pluginsdk.prior := pluginsdk.prior d |}).

Definition subscriptionId : string := "sub-0".

(** The four functions of the Container App Environment resource and the
    three of the Synapse AAD admin resource over this remote. *)
Definition Create_Func : GoFunc Remote :=
  containerapps.Create_Func client logAnalyticsClient sharedKeyClient subscriptionId
    ID LogAnalyticsWorkspaceID tags_Expand metadata_Decode.
Definition Read_Func : GoFunc Remote :=
  containerapps.Read_Func client ParseManagedEnvironmentID location_Normalize tags_Flatten
    metadata_Encode.
Definition Update_Func : GoFunc Remote :=
  containerapps.Update_Func client ParseManagedEnvironmentID tags_Expand metadata_Decode.
Definition Delete_Func : GoFunc Remote :=
  containerapps.Delete_Func client ParseManagedEnvironmentID.

Definition AADAdminCreateUpdate : GoFunc Remote :=
  synapse.resourceSynapseWorkspaceAADAdminCreateUpdate aadAdminsClient
    WorkspaceID WorkspaceId_ID WorkspaceAADAdminID WorkspaceAADAdminId_ID.
Definition AADAdminRead : GoFunc Remote :=
  synapse.resourceSynapseWorkspaceAADAdminRead aadAdminsClient
    WorkspaceId_ID WorkspaceAADAdminID.
Definition AADAdminDelete : GoFunc Remote :=
  synapse.resourceSynapseWorkspaceAADAdminDelete aadAdminsClient WorkspaceAADAdminID.
End inmemory.

(** ** Scenarios over the in-memory API *)

Module scenario.
Import inmemory.

Definition logsId : string :=
  "/subscriptions/sub-0/resourceGroups/rg-logs/providers/Microsoft.OperationalInsights/workspaces/logs".

Definition remote0 : Remote :=
  {| environments := ∅;
     workspaces :=
       {[ ("rg-logs", "logs") :=
            {| operationalinsights.WorkspaceProperties_ :=
                 Some {| operationalinsights.CustomerID := Some "customer-1" |} |} ]};
     sharedKeys :=
       {[ ("rg-logs", "logs") := {| operationalinsights.PrimarySharedKey := Some "key-1" |} ]};
     aadAdmins := ∅;
     bareAdmins := ∅ |}.

(** A configuration of the Container App Environment: the internal load
    balancer is asked for, with or without a subnet. *)
Definition config (subnet : string) (internal : bool) : gmap string attr :=
  <["name" := str "env1"]>
  (<["resource_group_name" := str "rg1"]>
  (<["location" := str "westeurope"]>
  (<["log_analytics_workspace_id" := str logsId]>
  (<["infrastructure_subnet_id" := str subnet]>
  (<["internal_load_balancer_enabled" := Prim (AnyBool internal)]>
  (<["tags" := Map {[ "env" := AnyString "test" ]}]> ∅)))))).

Definition plan (subnet : string) (internal : bool) : World Remote :=
  {| remote := remote0; calls := [];
     ResourceData := {| pluginsdk.Id := ""; pluginsdk.attrs := config subnet internal;
                        pluginsdk.prior := ∅ |} |}.

(** The same plan without a location, which the remote refuses. *)
Definition unlocated : World Remote :=
  {| remote := remote0; calls := [];
     ResourceData := {| pluginsdk.Id := "";
                        pluginsdk.attrs := <["location" := str ""]> (config "" false);
                        pluginsdk.prior := ∅ |} |}.

Definition refusal : error := External "managedenvironments" "400 LocationRequired".

(** What Decode makes of [config]. *)
Definition decoded (subnet : string) (internal : bool)
  : containerapps.ContainerAppEnvironmentModel :=
  {| containerapps.Name := "env1";
     containerapps.ResourceGroup := "rg1";
     containerapps.Location := "westeurope";
     containerapps.LogAnalyticsWorkspaceId := logsId;
     containerapps.InfrastructureSubnetId := subnet;
     containerapps.InternalLoadBalancerEnabled := internal;
     containerapps.Tags := {[ "env" := AnyString "test" ]};
     containerapps.DefaultDomain := "";
     containerapps.DockerBridgeCidr := "";
     containerapps.PlatformReservedCidr := "";
     containerapps.PlatformReservedDnsIP := "";
     containerapps.StaticIP := "";
     containerapps.CreatedAt := "";
     containerapps.CreatedBy := "";
     containerapps.CreatedByType := "";
     containerapps.LastModifiedAt := "";
     containerapps.LastModifiedBy := "";
     containerapps.LastModifiedByType := "" |}.

Definition env1 : managedenvironments.ManagedEnvironmentId :=
  managedenvironments.NewManagedEnvironmentID "sub-0" "rg1" "env1".

Definition subnet1 : string :=
  "/subscriptions/sub-0/resourceGroups/rg1/providers/Microsoft.Network/virtualNetworks/vnet/subnets/control".

(** The world after a successful create. *)
Definition created (subnet : string) (internal : bool) : World Remote :=
  snd (Create_Func (plan subnet internal)).

(** A refresh with nothing to change: the stored state is what is
    configured. *)
Definition unchanged (w : World Remote) : World Remote :=
  {| remote := remote w; calls := calls w;
     ResourceData := {| pluginsdk.Id := pluginsdk.Id (ResourceData w);
                        pluginsdk.attrs := pluginsdk.attrs (ResourceData w);
                        pluginsdk.prior := pluginsdk.attrs (ResourceData w) |} |}.

(** A second create of the environment that was just created. *)
Definition recreate : World Remote :=
  {| remote := remote (created "" true); calls := [];
     ResourceData := ResourceData (plan "" true) |}.

(** The request of a create without subnet. *)
Definition bareRequest : managedenvironments.ManagedEnvironment :=
  containerapps.Create_literal tags_Expand (decoded "" true)
    (Some "customer-1") (Some "key-1").

(** The world after create and the read that follows it. *)
Definition refreshed (subnet : string) (internal : bool) : World Remote :=
  snd (Read_Func (created subnet internal)).

(** The environment the remote holds for [env1]. *)
Definition stored (w : World Remote) : managedenvironments.ManagedEnvironment :=
  default (containerapps.Create_literal tags_Expand containerapps.zero None None)
    (environments (remote w) !! key env1).

(** The tags are edited in the configuration. *)
Definition retagged (w : World Remote) : World Remote :=
  {| remote := remote w; calls := calls w;
     ResourceData :=
       {| pluginsdk.Id := pluginsdk.Id (ResourceData w);
          pluginsdk.attrs :=
            <["tags" := Map {[ "env" := AnyString "prod" ]}]>
              (pluginsdk.attrs (ResourceData w));
          pluginsdk.prior := pluginsdk.attrs (ResourceData w) |} |}.

(** The request of the update that follows. *)
Definition retaggedRequest : managedenvironments.ManagedEnvironment :=
  containerapps.with_Tags (Some {[ "env" := "prod" ]})
    (stored (retagged (refreshed subnet1 true))).

(** The Synapse AAD admin of workspace [ws1]. *)
Definition workspace1 : string :=
  "/subscriptions/sub-0/resourceGroups/rg1/providers/Microsoft.Synapse/workspaces/ws1".

Definition admin1 : string :=
  "/subscriptions/sub-0/resourceGroups/rg1/providers/Microsoft.Synapse/workspaces/ws1/administrators/activeDirectory".

Definition adminConfig : gmap string attr :=
  <["synapse_workspace_id" := str workspace1]>
  (<["login" := str "admin@example.com"]>
  (<["object_id" := str "00000000-0000-0000-0000-000000000001"]>
  (<["tenant_id" := str "00000000-0000-0000-0000-000000000002"]> ∅))).

Definition adminProperties : synapse_sdk.AadAdminProperties :=
  {| synapse_sdk.TenantID := Some "00000000-0000-0000-0000-000000000002";
     synapse_sdk.Login := Some "admin@example.com";
     synapse_sdk.AdministratorType := Some "ActiveDirectory";
     synapse_sdk.Sid := Some "00000000-0000-0000-0000-000000000001" |}.

(** The admin is in state; the remote has it, has lost it, or returns a
    record without properties. *)
Definition adminWorld (admins : gmap (string * string) synapse_sdk.AadAdminProperties)
    (bare : gset (string * string)) (id : string) : World Remote :=
  {| remote := {| environments := ∅; workspaces := ∅; sharedKeys := ∅;
                  aadAdmins := admins; bareAdmins := bare |};
     calls := [];
     ResourceData := {| pluginsdk.Id := id; pluginsdk.attrs := adminConfig;
                        pluginsdk.prior := ∅ |} |}.

Definition workspaceId1 : parse.WorkspaceId := parse.NewWorkspaceID "sub-0" "rg1" "ws1".
Definition adminId1 : parse.WorkspaceAADAdminId :=
  parse.NewWorkspaceAADAdminID "sub-0" "rg1" "ws1" "activeDirectory".

(** The admin is not in state yet; the remote has none, or has one. *)
Definition adminNew : World Remote := adminWorld ∅ ∅ "".
Definition adminTaken : World Remote :=
  adminWorld {[ ("rg1", "ws1") := adminProperties ]} ∅ "".

Definition adminPresent : World Remote :=
  adminWorld {[ ("rg1", "ws1") := adminProperties ]} ∅ admin1.
Definition adminAbsent : World Remote := adminWorld ∅ ∅ admin1.
Definition adminBare : World Remote := adminWorld ∅ {[ ("rg1", "ws1") ]} admin1.
End scenario.

(** ** The schemas of the two resources *)

Module tf.
Inductive ValueType : Type := TypeString | TypeBool | TypeMap.

(** The validation functions the two files name; their bodies belong to
    other packages. *)
Inductive SchemaValidateFunc : Type :=
| StringIsNotEmpty
| LogAnalyticsWorkspaceID
| SubnetID
| WorkspaceID
| IsUUID.

(** A [pluginsdk.Schema], with the fields the two files set; a field that a
    literal leaves out has Go's zero value. *)
Record Schema : Type := {
  Type_ : ValueType;
  Required : bool;
  Optional : bool;
  Computed : bool;
  ForceNew : bool;
  Default : option any;
  ValidateFunc : option SchemaValidateFunc;
  Description : string
}.

Definition computed_only (s : Schema) : bool :=
  Computed s && negb (Required s) && negb (Optional s) && negb (ForceNew s).
End tf.

Module containerapps_schema.
(** The [tfschema] tags of [ContainerAppEnvironmentModel], in field order. *)
Definition tfschema : list string :=
  ["name"; "resource_group_name"; "location"; "log_analytics_workspace_id";
   "infrastructure_subnet_id"; "internal_load_balancer_enabled"; "tags";
   "default_domain"; "docker_bridge_cidr"; "platform_reserved_cidr";
   "platform_reserved_dns_ip"; "static_ip";
   "created_at"; "created_by"; "created_by_type";
   "last_modified_at"; "last_modified_by"; "last_modified_by_type"].

Definition computed_string : tf.Schema :=
  {| tf.Type_ := tf.TypeString; tf.Required := false; tf.Optional := false;
     tf.Computed := true; tf.ForceNew := false; tf.Default := None;
     tf.ValidateFunc := None; tf.Description := "" |}.

Section Schema.
(** [commonschema.Location()], [commonschema.ResourceGroupName()] and
    [commonschema.Tags()] *)
Variable commonschema_Location : tf.Schema.
Variable commonschema_ResourceGroupName : tf.Schema.
Variable commonschema_Tags : tf.Schema.

Definition Arguments : list (string * tf.Schema) :=
  [("name",
    {| tf.Type_ := tf.TypeString; tf.Required := true; tf.Optional := false;
       tf.Computed := false; tf.ForceNew := true; tf.Default := None;
       tf.ValidateFunc := Some tf.StringIsNotEmpty;
       tf.Description := "The name of the Container Apps Managed Environment." |});

   ("location", commonschema_Location);

   ("resource_group_name", commonschema_ResourceGroupName);

   ("log_analytics_workspace_id",
    {| tf.Type_ := tf.TypeString; tf.Required := true; tf.Optional := false;
       tf.Computed := false; tf.ForceNew := true; tf.Default := None;
       tf.ValidateFunc := Some tf.LogAnalyticsWorkspaceID;
       tf.Description := "The ID for the Log Analytics Workspace to link this Container Apps Managed Environment to." |});

   ("infrastructure_subnet_id",
    {| tf.Type_ := tf.TypeString; tf.Required := false; tf.Optional := true;
       tf.Computed := true; tf.ForceNew := true; tf.Default := None;
       tf.ValidateFunc := Some tf.SubnetID;
       tf.Description := "The existing Subnet to use for the Container Apps Control Plane. **NOTE:** The Subnet must have a `/21` or larger address space." |});

   ("internal_load_balancer_enabled",
    {| tf.Type_ := tf.TypeBool; tf.Required := false; tf.Optional := true;
       tf.Computed := false; tf.ForceNew := true; tf.Default := Some (AnyBool false);
       tf.ValidateFunc := None;
       tf.Description := "Should the Container Environment operate in Internal Load Balancing Mode? Defaults to `false`. **Note:** can only be set to `true` if `infrastructure_subnet_id` is specified." |});

   ("tags", commonschema_Tags)].

Definition Attributes : list (string * tf.Schema) :=
  [("created_at", computed_string);
   ("created_by", computed_string);
   ("created_by_type", computed_string);
   ("default_domain", computed_string);
   ("docker_bridge_cidr", computed_string);
   ("last_modified_at", computed_string);
   ("last_modified_by", computed_string);
   ("last_modified_by_type", computed_string);
   ("platform_reserved_cidr", computed_string);
   ("platform_reserved_dns_ip", computed_string);
   ("static_ip", computed_string)].

(** The keys whose schema comes from [commonschema]. *)
Definition from_commonschema (key : string) : bool :=
  bool_decide (key ∈ ["location"; "resource_group_name"; "tags"]).
End Schema.
End containerapps_schema.

Module synapse_schema.
Definition required_string (validate : tf.SchemaValidateFunc) : tf.Schema :=
  {| tf.Type_ := tf.TypeString; tf.Required := true; tf.Optional := false;
     tf.Computed := false; tf.ForceNew := false; tf.Default := None;
     tf.ValidateFunc := Some validate; tf.Description := "" |}.

(** The [Schema] field of [resourceSynapseWorkspaceAADAdmin]. *)
Definition Schema : list (string * tf.Schema) :=
  [("synapse_workspace_id", required_string tf.WorkspaceID);
   ("login", required_string tf.StringIsNotEmpty);
   ("object_id", required_string tf.IsUUID);
   ("tenant_id", required_string tf.IsUUID)].

(** The function handed to [pluginsdk.ImporterValidatingResourceId]:
    [func(id string) error { _, err := parse.WorkspaceAADAdminID(id); return err }] *)
Definition Importer (WorkspaceAADAdminID : string -> error + parse.WorkspaceAADAdminId)
    (id : string) : option error :=
  match WorkspaceAADAdminID id with
  | inl err => Some err
  | inr _ => None
  end.
End synapse_schema.

(** ** Kinds of request *)

Definition is_delete (c : Call) : bool :=
  match c with
  | ManagedEnvironments_DeleteThenPoll _ | WorkspaceAadAdmins_Delete _ _ => true
  | _ => false
  end.

Definition is_get (c : Call) : bool :=
  match c with
  | ManagedEnvironments_Get _ | Workspaces_Get _ _ | SharedKeys_GetSharedKeys _ _
  | WorkspaceAadAdmins_Get _ _ => true
  | _ => false
  end.

(** The wait for a long-running operation to complete. *)
Definition is_wait (c : Call) : bool :=
  match c with
  | WorkspaceAadAdmins_WaitForCompletionRef => true
  | _ => false
  end.

(** ** Remotes that misbehave *)

Module faulty.
(** A management API that answers every Get with success and no model. *)
Definition hollowClient : managedenvironments.ManagedEnvironmentsClient unit :=
  {| managedenvironments.Get := fun _ s =>
       (({| managedenvironments.HttpResponse := inmemory.ok;
            managedenvironments.Model := None |}, None), s);
     managedenvironments.CreateOrUpdateThenPoll := fun _ _ s => (None, s);
     managedenvironments.DeleteThenPoll := fun _ s => (None, s) |}.

Definition denied : error := External "workspaceaadadmins" "403 Forbidden".

(** A Synapse API that refuses every write. *)
Definition refusingClient : synapse_sdk.WorkspaceAadAdminsClient unit unit :=
  {| synapse_sdk.CreateOrUpdate := fun _ _ _ s => ((tt, Some denied), s);
     synapse_sdk.Get := fun _ _ s =>
       (({| synapse_sdk.Response := inmemory.notFound;
            synapse_sdk.AadAdminProperties_ := None |},
         Some (External "workspaceaadadmins" "404 Not Found")), s);
     synapse_sdk.Delete := fun _ _ s => ((tt, Some denied), s);
     synapse_sdk.WaitForCompletionRef := fun _ s => (None, s) |}.

Definition on (d : pluginsdk.ResourceData) : World unit :=
  {| remote := tt; calls := []; ResourceData := d |}.
End faulty.

(** ** Further scenarios *)

Module cases.
Import inmemory scenario.

(** The workspace exists but reports no customer ID. *)
Definition noCustomer : World Remote :=
  {| remote :=
       {| environments := ∅;
          workspaces :=
            {[ ("rg-logs", "logs") :=
                 {| operationalinsights.WorkspaceProperties_ :=
                      Some {| operationalinsights.CustomerID := None |} |} ]};
          sharedKeys := sharedKeys remote0;
          aadAdmins := ∅;
          bareAdmins := ∅ |};
     calls := [];
     ResourceData := ResourceData (plan "" false) |}.

(** The environment is in state but no longer on the remote. *)
Definition orphaned : World Remote :=
  {| remote := remote0; calls := [];
     ResourceData := ResourceData (refreshed subnet1 true) |}.

Definition missing : error := External "managedenvironments" "404 Not Found".

(** The environment is in state and the remote answers with no model. *)
Definition hollow : World unit := faulty.on (ResourceData (refreshed subnet1 true)).

Definition hollowUpdate : GoFunc unit :=
  containerapps.Update_Func faulty.hollowClient ParseManagedEnvironmentID tags_Expand
    metadata_Decode.

(** The admin is planned and the remote refuses to store it. *)
Definition refused : World unit := faulty.on (ResourceData adminNew).

Definition refusedCreateUpdate : GoFunc unit :=
  synapse.resourceSynapseWorkspaceAADAdminCreateUpdate faulty.refusingClient
    WorkspaceID WorkspaceId_ID WorkspaceAADAdminID WorkspaceAADAdminId_ID.

(** The name in state is no string: Decode fails. *)
Definition mistyped : World Remote :=
  {| remote := remote0; calls := [];
     ResourceData :=
       {| pluginsdk.Id := ID env1;
          pluginsdk.attrs := <["name" := Prim (AnyBool true)]> (config "" false);
          pluginsdk.prior := ∅ |} |}.

Definition mismatch : error := External "sdk" "decode: type mismatch".

Definition adminInfo : synapse_sdk.WorkspaceAadAdminInfo :=
  {| synapse_sdk.Response := None;
     synapse_sdk.AadAdminProperties_ := Some adminProperties |}.

Definition adminStored : Remote :=
  with_aadAdmins <[("rg1", "ws1") := adminProperties]> (remote adminNew).
End cases.

(** * Properties *)

Local Open Scope list_scope.

(** Unfolding the monad down to the worlds. *)
Ltac run :=
  cbv [func mbind M_bind bind mret M_ret ret return_ panic deref when skip
       request request_ request_get request_gen get_data put_data invoke
       sdk.MarkAsGone sdk.SetID sdk.Get_string sdk.ResourceRequiresImport
       containerapps.Decode containerapps.Encode containerapps.Parse_Id
       containerapps.assign_vnet synapse.d_Set synapse.d_Set_ptr
       not_nil is_nil negb] in *.

Lemma new_calls_app {S} (w w' : World S) (l : list entry) :
  calls w' = calls w ++ l → new_calls w w' = l.
Proof. unfold new_calls. intros ->. apply drop_app_length. Qed.

Lemma new_calls_nil {S} (w w' : World S) :
  calls w' = calls w → new_calls w w' = [].
Proof. intros H. apply new_calls_app. now rewrite app_nil_r. Qed.

Lemma new_calls_same {S} (w : World S) s d :
  new_calls w {| remote := s; calls := calls w; ResourceData := d |} = [].
Proof. now apply new_calls_nil. Qed.

Lemma new_calls_refl {S} (w : World S) : new_calls w w = [].
Proof. now apply new_calls_nil. Qed.

Lemma new_calls_more {S} (w : World S) s l d :
  new_calls w {| remote := s; calls := calls w ++ l; ResourceData := d |} = l.
Proof. now apply new_calls_app. Qed.

(** Reads the requests of a finished run off the goal [In x (new_calls ..) → _]
    and leaves one goal per request. *)
Ltac requests :=
  rewrite <- ?app_assoc; simpl;
  rewrite ?new_calls_refl, ?new_calls_same, ?new_calls_more;
  let Hx := fresh "Hx" in
  intros Hx; simpl in Hx; try contradiction;
  decompose [or] Hx; try clear Hx; subst; simpl in *;
  try discriminate; try contradiction.

(** One case split of a run: on a test or a reply that no longer depends on
    an earlier one. *)
Ltac step :=
  match goal with
  | |- context [match ?t with _ => _ end] =>
      lazymatch t with
      | context [match _ with _ => _ end] => fail
      | _ => first [is_var t; destruct t | destruct t eqn:?]
      end
  end; simpl.

Section Resources.
Import managedenvironments containerapps.
#[local] Set Default Proof Using "Type".
Context {S : Type}.
Variable client : ManagedEnvironmentsClient S.
Variable logAnalyticsClient : operationalinsights.WorkspacesClient S.
Variable sharedKeyClient : operationalinsights.SharedKeysClient S.
Variable subscriptionId : string.
Variable ID : ManagedEnvironmentId -> string.
Variable ParseManagedEnvironmentID : string -> error + ManagedEnvironmentId.
Variable LogAnalyticsWorkspaceID
  : string -> error + loganalyticsParse.LogAnalyticsWorkspaceId.
Variable location_Normalize : string -> string.
Variable tags_Expand : gmap string any -> option (gmap string string).
Variable tags_Flatten : option (gmap string string) -> gmap string any.
Variable metadata_Decode : pluginsdk.ResourceData -> error + ContainerAppEnvironmentModel.
Variable metadata_Encode
  : ContainerAppEnvironmentModel -> pluginsdk.ResourceData ->
    option error * pluginsdk.ResourceData.

Local Abbreviation Create_Func :=
  (Create_Func client logAnalyticsClient sharedKeyClient subscriptionId ID
     LogAnalyticsWorkspaceID tags_Expand metadata_Decode).
Local Abbreviation Read_Func :=
  (Read_Func client ParseManagedEnvironmentID location_Normalize tags_Flatten
     metadata_Encode).
Local Abbreviation Update_Func :=
  (Update_Func client ParseManagedEnvironmentID tags_Expand metadata_Decode).
Local Abbreviation Delete_Func := (Delete_Func client ParseManagedEnvironmentID).
Local Abbreviation Read_flatten := (Read_flatten location_Normalize tags_Flatten).

(** *** Read: the flattening is null-guarded *)

Lemma Read_flatten_nil_model id existing :
  Model existing = None → Read_flatten id existing = zero.
Proof. intros H. unfold containerapps.Read_flatten. now rewrite H. Qed.

Lemma Read_flatten_nil_properties id existing model :
  Model existing = Some model → Properties model = None →
  let state := Read_flatten id existing in
  InfrastructureSubnetId state = "" ∧ InternalLoadBalancerEnabled state = false
  ∧ DockerBridgeCidr state = "" ∧ PlatformReservedCidr state = ""
  ∧ PlatformReservedDnsIP state = "" ∧ StaticIP state = "" ∧ DefaultDomain state = "".
Proof.
  intros Hm Hp. unfold containerapps.Read_flatten. rewrite Hm, Hp.
  destruct (SystemData model); repeat split; reflexivity.
Qed.

Lemma Read_flatten_nil_vnet id existing model props :
  Model existing = Some model → Properties model = Some props →
  VnetConfiguration_ props = None →
  let state := Read_flatten id existing in
  InfrastructureSubnetId state = "" ∧ InternalLoadBalancerEnabled state = false
  ∧ DockerBridgeCidr state = "" ∧ PlatformReservedCidr state = ""
  ∧ PlatformReservedDnsIP state = "".
Proof.
  intros Hm Hp Hv. unfold containerapps.Read_flatten. rewrite Hm, Hp, Hv.
  destruct (SystemData model); repeat split; reflexivity.
Qed.

Lemma Read_flatten_nil_system_data id existing model :
  Model existing = Some model → SystemData model = None →
  let state := Read_flatten id existing in
  CreatedAt state = "" ∧ CreatedBy state = "" ∧ CreatedByType state = ""
  ∧ LastModifiedAt state = "" ∧ LastModifiedBy state = "" ∧ LastModifiedByType state = "".
Proof.
  intros Hm Hs. unfold containerapps.Read_flatten. rewrite Hm, Hs.
  destruct (Properties model) as [props|]; [destruct (VnetConfiguration_ props)|];
    repeat split; reflexivity.
Qed.

(** The flattening never assigns the workspace id. *)
Lemma Read_flatten_workspace id existing :
  LogAnalyticsWorkspaceId (Read_flatten id existing) = "".
Proof.
  unfold containerapps.Read_flatten.
  destruct (Model existing) as [model|]; [|reflexivity].
  destruct (Properties model) as [props|]; [destruct (VnetConfiguration_ props)|];
    destruct (SystemData model); reflexivity.
Qed.

(** Read leaves by [return], or by the panic of the type assertion on the
    configured workspace id: it dereferences no nil pointer. *)
Lemma Read_no_nil_dereference w msg w' :
  Read_Func w = (Panic msg, w') → msg ≠ nil_dereference.
Proof.
  unfold containerapps.Read_Func. run.
  destruct (ParseManagedEnvironmentID _); [discriminate|].
  destruct (Get client _ _) as [[existing [e|]] s1]; simpl.
  - destruct (response.WasNotFound _); discriminate.
  - destruct (pluginsdk.Get _ _) as [[[v|b]|tags]|]; simpl;
      try (destruct (metadata_Encode _ _) as [[e|] d']; discriminate);
      intros [= <- _]; discriminate.
Qed.

(** A "not found" on Read removes the resource from state. *)
Lemma Read_not_found_gone w id existing e s1 :
  ParseManagedEnvironmentID (pluginsdk.Id (ResourceData w)) = inr id →
  Get client id (remote w) = ((existing, Some e), s1) →
  response.WasNotFound (HttpResponse existing) = true →
  ∃ w', Read_Func w = (Return None, w') ∧ gone w'
        ∧ new_calls w w' = [{| call := ManagedEnvironments_Get id; err := Some e;
                               not_found := true |}].
Proof.
  intros Hid Hget Hnf. unfold containerapps.Read_Func. run.
  rewrite Hid, Hget. simpl. rewrite Hnf. simpl.
  eexists; split; [reflexivity|]. split; [reflexivity|].
  now apply new_calls_app.
Qed.

(** A successful Get: what Read hands to Encode, and how it ends. *)
Lemma Read_found w id existing s1 v :
  ParseManagedEnvironmentID (pluginsdk.Id (ResourceData w)) = inr id →
  Get client id (remote w) = ((existing, None), s1) →
  configured_string "log_analytics_workspace_id" (ResourceData w) v →
  let state := Read_workspace v (Read_flatten id existing) in
  let encoded := metadata_Encode state (ResourceData w) in
  Read_Func w =
    (Return match fst encoded with
            | Some e => Some (Errorf "encoding: %+v" [ArgError (Some e)])
            | None => None
            end,
     {| remote := s1;
        calls := calls w ++ [{| call := ManagedEnvironments_Get id; err := None;
                                not_found := response.WasNotFound (HttpResponse existing) |}];
        ResourceData := snd encoded |}).
Proof.
  intros Hid Hget Hv state encoded.
  unfold containerapps.Read_Func. run. rewrite Hid, Hget. simpl.
  unfold configured_string in Hv.
  destruct (pluginsdk.Get _ _) as [[[s|b]|tags]|]; try easy; simpl in *; subst v;
    fold state; fold encoded; destruct encoded as [[e|] d']; reflexivity.
Qed.

Lemma Read_workspace_field v state :
  LogAnalyticsWorkspaceId state = "" →
  LogAnalyticsWorkspaceId (Read_workspace v state) = v.
Proof.
  intros Hzero. unfold Read_workspace. case_bool_decide as Hne.
  - destruct state; reflexivity.
  - destruct (decide (v = "")) as [->|]; [exact Hzero|contradiction].
Qed.

(** C9: the Container App Environment Read never takes
    log_analytics_workspace_id from the remote response.  The flattening of
    the response leaves the field at its zero value; the state handed to
    Encode carries the configured value [v], whatever the response was, and
    when [v] is empty the field is not assigned at all. *)
Theorem Read_workspace_id_from_config w id existing s1 v :
  ParseManagedEnvironmentID (pluginsdk.Id (ResourceData w)) = inr id →
  Get client id (remote w) = ((existing, None), s1) →
  configured_string "log_analytics_workspace_id" (ResourceData w) v →
  let flat := Read_flatten id existing in
  let state := Read_workspace v flat in
  let encoded := metadata_Encode state (ResourceData w) in
  Read_Func w =
    (Return match fst encoded with
            | Some e => Some (Errorf "encoding: %+v" [ArgError (Some e)])
            | None => None
            end,
     {| remote := s1;
        calls := calls w ++ [{| call := ManagedEnvironments_Get id; err := None;
                                not_found := response.WasNotFound (HttpResponse existing) |}];
        ResourceData := snd encoded |})
  ∧ LogAnalyticsWorkspaceId flat = ""
  ∧ LogAnalyticsWorkspaceId state = v
  ∧ (v = "" → state = flat).
Proof.
  intros Hid Hget Hv flat state encoded. split; [|split; [|split]].
  - now apply Read_found.
  - apply Read_flatten_workspace.
  - apply Read_workspace_field, Read_flatten_workspace.
  - intros ->. subst state. unfold Read_workspace. now rewrite bool_decide_eq_false_2.
Qed.

(** *** Create *)

(** The existence check of Create: when the Get does not answer "not
    found", Create fails without any further request: with the
    import-required error when the Get succeeded, with the wrapped error of
    the check when the Get failed otherwise. *)
Lemma Create_found w cfg existing e s1 :
  metadata_Decode (ResourceData w) = inr cfg →
  let id := NewManagedEnvironmentID subscriptionId (ResourceGroup cfg)
              (containerapps.Name cfg) in
  Get client id (remote w) = ((existing, e), s1) →
  response.WasNotFound (HttpResponse existing) = false →
  let w1 := after_request w s1
              {| call := ManagedEnvironments_Get id; err := e; not_found := false |} in
  Create_Func w =
    (Return (Some match e with
                  | Some _ => Errorf "checking for presence of existing %s: %+v"
                                [fmt_id id; ArgError e]
                  | None => ImportAsExistsError "azurerm_container_app_environment" (ID id)
                  end), w1)
  ∧ new_calls w w1 = [{| call := ManagedEnvironments_Get id; err := e; not_found := false |}]
  ∧ ∀ x i m, In x (new_calls w w1) →
      call x ≠ ManagedEnvironments_CreateOrUpdateThenPoll i m.
Proof.
  intros Hcfg id Hget Hnf w1.
  assert (Hnew : new_calls w w1 =
                 [{| call := ManagedEnvironments_Get id; err := e; not_found := false |}])
    by now apply new_calls_app.
  split; [|split; [exact Hnew|]].
  - unfold containerapps.Create_Func. run. rewrite Hcfg. fold id. rewrite Hget. simpl.
    rewrite Hnf. destruct e; reflexivity.
  - intros x i m Hin. rewrite Hnew in Hin. destruct Hin as [<-|[]]. discriminate.
Qed.

(** C10: when the remote create is reached, the request carries a
    VnetConfiguration.  With an empty InfrastructureSubnetId it is the empty
    one, whatever InternalLoadBalancerEnabled says; with a subnet it carries
    the subnet and the flag.  So the flag is sent exactly when a subnet
    is. *)
Theorem Create_vnet_configuration w cfg x id m :
  metadata_Decode (ResourceData w) = inr cfg →
  In x (new_calls w (snd (Create_Func w))) →
  call x = ManagedEnvironments_CreateOrUpdateThenPoll id m →
  ∃ props vnet,
    Properties m = Some props ∧ VnetConfiguration_ props = Some vnet
    ∧ (containerapps.InfrastructureSubnetId cfg = "" → vnet = VnetConfiguration_zero)
    ∧ (containerapps.InfrastructureSubnetId cfg ≠ "" →
       managedenvironments.InfrastructureSubnetId vnet
         = Some (containerapps.InfrastructureSubnetId cfg)
       ∧ Internal vnet = Some (InternalLoadBalancerEnabled cfg))
    ∧ (Internal vnet ≠ None ↔ containerapps.InfrastructureSubnetId cfg ≠ "").
Proof.
  clear ParseManagedEnvironmentID location_Normalize tags_Flatten metadata_Encode.
  intros Hcfg Hin Hcall. revert Hin.
  unfold containerapps.Create_Func. run. rewrite Hcfg.
  set (env := NewManagedEnvironmentID _ _ _). simpl.
  repeat step; requests.
  all: injection Hcall as <- <-.
  all: eexists _, _; split; [reflexivity|]; split; [reflexivity|].
  all: match goal with
       | H : bool_decide _ = true |- _ => apply bool_decide_eq_true in H
       | H : bool_decide _ = false |- _ => apply bool_decide_eq_false in H
       end.
  all: unfold utils.Bool, utils.String; simpl.
  all: repeat split; intros; try tauto; try congruence; try discriminate.
Qed.

(** *** Update *)

(** C6: the Container App Environment Update changes nothing but the tags,
    and those only when they have changed.  Whatever the remote answers, the
    model of a create-or-update request of Update has the location, name,
    properties and system data of the model that the Get of the same run
    returned, and its tags are the configured ones if the tags have changed
    and the fetched ones otherwise; when the Get returns a model, such a
    request is sent. *)
Theorem Update_changes_only_tags w :
  (∀ x i submitted,
     In x (new_calls w (snd (Update_Func w))) →
     call x = ManagedEnvironments_CreateOrUpdateThenPoll i submitted →
     ∃ state existing model s1,
       metadata_Decode (ResourceData w) = inr state
       ∧ Get client i (remote w) = ((existing, None), s1)
       ∧ Model existing = Some model
       ∧ managedenvironments.Location submitted = managedenvironments.Location model
       ∧ managedenvironments.Name submitted = managedenvironments.Name model
       ∧ Properties submitted = Properties model
       ∧ SystemData submitted = SystemData model
       ∧ managedenvironments.Tags submitted
           = if pluginsdk.HasChange "tags" (ResourceData w)
             then tags_Expand (containerapps.Tags state)
             else managedenvironments.Tags model)
  ∧ (∀ id state existing model s1,
       ParseManagedEnvironmentID (pluginsdk.Id (ResourceData w)) = inr id →
       metadata_Decode (ResourceData w) = inr state →
       Get client id (remote w) = ((existing, None), s1) →
       Model existing = Some model →
       ∃ submitted,
         call <$> new_calls w (snd (Update_Func w))
           = [ManagedEnvironments_Get id;
              ManagedEnvironments_CreateOrUpdateThenPoll id submitted]).
Proof.
  split.
  - intros x i submitted. unfold containerapps.Update_Func. run.
    repeat step; requests.
    all: intros [= <- <-]; eexists _, _, _, _.
    all: split; [reflexivity|]; split; [eassumption|]; split; [eassumption|].
    all: repeat split.
  - intros id state existing model s1 Hid Hstate Hget Hmodel.
    unfold containerapps.Update_Func. run. rewrite Hid, Hstate, Hget. simpl.
    destruct (pluginsdk.HasChange "tags" (ResourceData w)); simpl; rewrite Hmodel; simpl.
    all: match goal with
         | |- context [CreateOrUpdateThenPoll client ?i ?n ?s] =>
             destruct (CreateOrUpdateThenPoll client i n s) as [[cerr|] s2]
         end; simpl.
    all: rewrite <- ?app_assoc; simpl; erewrite new_calls_app by reflexivity.
    all: eexists; reflexivity.
Qed.

(** C5: when no configured field has changed (it is enough that the tags
    have not), Update is a no-op on the remote.  Whatever the remote
    answers, a create-or-update request of Update carries the model that the
    Get of the same run returned; and when the Get returns a model, the
    requests are that Get and the create-or-update of exactly this model, so
    that a remote which is left as it was by being handed back what it
    returned is unchanged by Update. *)
Theorem Update_no_change_resubmits_fetched_model w :
  pluginsdk.HasChange "tags" (ResourceData w) = false →
  (∀ x i m,
     In x (new_calls w (snd (Update_Func w))) →
     call x = ManagedEnvironments_CreateOrUpdateThenPoll i m →
     ∃ existing s1,
       ParseManagedEnvironmentID (pluginsdk.Id (ResourceData w)) = inr i
       ∧ Get client i (remote w) = ((existing, None), s1)
       ∧ Model existing = Some m)
  ∧ (∀ id state existing model s1,
       ParseManagedEnvironmentID (pluginsdk.Id (ResourceData w)) = inr id →
       metadata_Decode (ResourceData w) = inr state →
       Get client id (remote w) = ((existing, None), s1) →
       Model existing = Some model →
       let result := CreateOrUpdateThenPoll client id model s1 in
       Update_Func w =
         (Return match fst result with
                 | Some e => Some (Errorf "updating %s: %+v"
                                     [fmt_id id; ArgError (Some e)])
                 | None => None
                 end,
          {| remote := snd result;
             calls := calls w ++
                      [{| call := ManagedEnvironments_Get id; err := None;
                          not_found := response.WasNotFound (HttpResponse existing) |};
                       {| call := ManagedEnvironments_CreateOrUpdateThenPoll id model;
                          err := fst result; not_found := false |}];
             ResourceData := ResourceData w |})
       ∧ (result = (None, s1) →
          fst (Update_Func w) = Return None ∧ remote (snd (Update_Func w)) = s1)).
Proof.
  intros Hsame. split.
  - intros x i m. unfold containerapps.Update_Func. run.
    repeat step; try congruence; requests.
    all: intros [= <- <-]; eexists _, _; repeat split; eassumption.
  - intros id state existing model s1 Hid Hstate Hget Hmodel result.
    assert (Hrun : Update_Func w =
      (Return match fst result with
              | Some e => Some (Errorf "updating %s: %+v" [fmt_id id; ArgError (Some e)])
              | None => None
              end,
       {| remote := snd result;
          calls := calls w ++
                   [{| call := ManagedEnvironments_Get id; err := None;
                       not_found := response.WasNotFound (HttpResponse existing) |};
                    {| call := ManagedEnvironments_CreateOrUpdateThenPoll id model;
                       err := fst result; not_found := false |}];
          ResourceData := ResourceData w |})).
    { unfold containerapps.Update_Func. run. rewrite Hid, Hstate, Hget. simpl.
      rewrite Hsame, Hmodel. simpl. fold result.
      destruct result as [[cerr|] s2]; simpl; rewrite <- app_assoc; reflexivity. }
    split; [exact Hrun|].
    intros Hok. rewrite Hrun, Hok. split; reflexivity.
Qed.

(** *** The error discipline of the four functions *)

Ltac wrapped :=
  left; eexists; split; [reflexivity|];
  eexists;
  first [ eexists [_]; split; [reflexivity|split; reflexivity]
        | eexists [_; _]; split; [reflexivity|split; reflexivity]
        | eexists [_; _; _]; split; [reflexivity|split; reflexivity] ].

Ltac discipline :=
  intros [= <- <-];
  rewrite <- ?app_assoc; simpl;
  rewrite ?new_calls_refl, ?new_calls_same, ?new_calls_more;
  split; [apply NoDup_ListNoDup; simpl;
          repeat (constructor; [simpl; intuition discriminate|]); constructor|];
  split; [reflexivity|];
  simpl;
  let Hlast := fresh "Hlast" in
  let Herr := fresh "Herr" in
  intros ? ? Hlast Herr;
  first [ discriminate Hlast
        | injection Hlast as <-; simpl in Herr;
          first [ discriminate Herr
                | injection Herr as <-; first [wrapped | right; reflexivity] ] ].

Lemma Create_surfaces_remote_errors : surfaces_remote_errors Create_Func.
Proof.
  clear ParseManagedEnvironmentID location_Normalize tags_Flatten metadata_Encode.
  intros w out w'. unfold containerapps.Create_Func. run.
  repeat step; solve [discipline].
Qed.

Lemma Read_surfaces_remote_errors : surfaces_remote_errors Read_Func.
Proof.
  clear logAnalyticsClient sharedKeyClient subscriptionId ID LogAnalyticsWorkspaceID tags_Expand metadata_Decode.
  intros w out w'. unfold containerapps.Read_Func. run.
  repeat step; solve [discipline].
Qed.

Lemma Update_surfaces_remote_errors : surfaces_remote_errors Update_Func.
Proof.
  clear logAnalyticsClient sharedKeyClient subscriptionId ID LogAnalyticsWorkspaceID location_Normalize tags_Flatten metadata_Encode.
  intros w out w'. unfold containerapps.Update_Func. run.
  repeat step; solve [discipline].
Qed.

Lemma Delete_surfaces_remote_errors : surfaces_remote_errors Delete_Func.
Proof.
  clear logAnalyticsClient sharedKeyClient subscriptionId ID LogAnalyticsWorkspaceID tags_Expand metadata_Decode location_Normalize tags_Flatten metadata_Encode.
  intros w out w'. unfold containerapps.Delete_Func. run.
  repeat step; solve [discipline].
Qed.

(** *** Create followed by Read *)

(** The fields of the configuration as Read gives them back after a
    successful Create, when the remote returns the model it was sent. *)
Lemma Create_then_Read w cfg w1 :
  metadata_Decode (ResourceData w) = inr cfg →
  Create_Func w = (Return None, w1) →
  let id := NewManagedEnvironmentID subscriptionId (ResourceGroup cfg)
              (containerapps.Name cfg) in
  ParseManagedEnvironmentID (ID id) = inr id →
  (∀ m, call <$> last (calls w1)
          = Some (ManagedEnvironments_CreateOrUpdateThenPoll id m) →
        ∃ resp s2, Get client id (remote w1)
                     = (({| HttpResponse := resp; Model := Some m |}, None), s2)) →
  tags_Flatten (tags_Expand (containerapps.Tags cfg)) = containerapps.Tags cfg →
  configured_string "log_analytics_workspace_id" (ResourceData w)
    (LogAnalyticsWorkspaceId cfg) →
  ∃ state s2 x,
    Read_Func w1 =
      (Return match fst (metadata_Encode state (ResourceData w1)) with
              | Some e => Some (Errorf "encoding: %+v" [ArgError (Some e)])
              | None => None
              end,
       {| remote := s2; calls := calls w1 ++ [x];
          ResourceData := snd (metadata_Encode state (ResourceData w1)) |})
    ∧ containerapps.Name state = containerapps.Name cfg
    ∧ ResourceGroup state = ResourceGroup cfg
    ∧ containerapps.Location state = location_Normalize (containerapps.Location cfg)
    ∧ LogAnalyticsWorkspaceId state = LogAnalyticsWorkspaceId cfg
    ∧ containerapps.InfrastructureSubnetId state = containerapps.InfrastructureSubnetId cfg
    ∧ containerapps.Tags state = containerapps.Tags cfg
    ∧ InternalLoadBalancerEnabled state
        = (if bool_decide (containerapps.InfrastructureSubnetId cfg ≠ "")
           then InternalLoadBalancerEnabled cfg else false).
Proof.
  intros Hcfg Hrun id Hparse Hstored Htags Hv. revert Hrun.
  unfold containerapps.Create_Func. run. rewrite Hcfg. fold id. simpl.
  repeat step; intros [= <-]; simpl in *.
  all: edestruct Hstored as (resp & s9 & Hget);
    [rewrite last_snoc; reflexivity|].
  all: eexists _, _, _; split;
    [apply Read_found; [exact Hparse|exact Hget|exact Hv]|].
  all: match goal with
       | H : bool_decide _ = true |- _ => apply bool_decide_eq_true in H
       | H : bool_decide _ = false |- _ =>
           apply bool_decide_eq_false in H; apply dec_stable in H
       end.
  all: repeat split;
    try (rewrite Read_workspace_field; [reflexivity|apply Read_flatten_workspace]).
  all: unfold Read_workspace; case_bool_decide; simpl; try rewrite Htags;
    try reflexivity; try congruence.
Qed.

(** *** The Synapse Workspace AAD Admin *)

Context {Future : Type}.
Variable aadClient : synapse_sdk.WorkspaceAadAdminsClient S Future.
Variable WorkspaceID : string -> error + parse.WorkspaceId.
Variable WorkspaceId_ID : parse.WorkspaceId -> string.
Variable WorkspaceAADAdminID : string -> error + parse.WorkspaceAADAdminId.
Variable WorkspaceAADAdminId_ID : parse.WorkspaceAADAdminId -> string.

Local Abbreviation AADAdminCreateUpdate :=
  (synapse.resourceSynapseWorkspaceAADAdminCreateUpdate aadClient
     WorkspaceID WorkspaceId_ID WorkspaceAADAdminID WorkspaceAADAdminId_ID).
Local Abbreviation AADAdminRead :=
  (synapse.resourceSynapseWorkspaceAADAdminRead aadClient
     WorkspaceId_ID WorkspaceAADAdminID).
Local Abbreviation AADAdminDelete :=
  (synapse.resourceSynapseWorkspaceAADAdminDelete aadClient WorkspaceAADAdminID).

Lemma AADAdminRead_surfaces_remote_errors : surfaces_remote_errors AADAdminRead.
Proof.
  clear client logAnalyticsClient sharedKeyClient subscriptionId ID LogAnalyticsWorkspaceID tags_Expand metadata_Decode ParseManagedEnvironmentID location_Normalize tags_Flatten metadata_Encode WorkspaceID WorkspaceAADAdminId_ID.
  intros w out w'. unfold synapse.resourceSynapseWorkspaceAADAdminRead. run.
  change utils.ResponseWasNotFound with response.WasNotFound.
  repeat step; solve [discipline].
Qed.

Lemma AADAdminCreateUpdate_surfaces_remote_errors :
  surfaces_remote_errors AADAdminCreateUpdate.
Proof.
  clear client logAnalyticsClient sharedKeyClient subscriptionId ID LogAnalyticsWorkspaceID tags_Expand metadata_Decode ParseManagedEnvironmentID location_Normalize tags_Flatten metadata_Encode.
  intros w out w'.
  unfold synapse.resourceSynapseWorkspaceAADAdminCreateUpdate,
    synapse.resourceSynapseWorkspaceAADAdminRead. run.
  change utils.ResponseWasNotFound with response.WasNotFound.
  repeat step; solve [discipline].
Qed.

Lemma AADAdminDelete_surfaces_remote_errors : surfaces_remote_errors AADAdminDelete.
Proof.
  clear client logAnalyticsClient sharedKeyClient subscriptionId ID LogAnalyticsWorkspaceID tags_Expand metadata_Decode ParseManagedEnvironmentID location_Normalize tags_Flatten metadata_Encode WorkspaceID WorkspaceId_ID WorkspaceAADAdminId_ID.
  intros w out w'. unfold synapse.resourceSynapseWorkspaceAADAdminDelete. run.
  repeat step; solve [discipline].
Qed.

(** The Synapse Read never touches the identifier: whatever the remote
    answers, the resource stays in state. *)
Lemma AADAdminRead_keeps_Id w :
  pluginsdk.Id (ResourceData (snd (AADAdminRead w))) = pluginsdk.Id (ResourceData w).
Proof.
  clear client logAnalyticsClient sharedKeyClient subscriptionId ID LogAnalyticsWorkspaceID tags_Expand metadata_Decode ParseManagedEnvironmentID location_Normalize tags_Flatten metadata_Encode WorkspaceID WorkspaceAADAdminId_ID.
  unfold synapse.resourceSynapseWorkspaceAADAdminRead. run.
  repeat step; reflexivity.
Qed.

(** C1 (the Synapse half, as the code has it): when the Get of the Synapse
    Read answers "not found", the error is dropped and the function goes on
    as if the admin existed.  The resource is not removed from state; the
    run ends in the panic of a nil dereference when the response carries no
    properties, and in a plain success that copies the properties
    otherwise. *)
Theorem AADAdminRead_not_found_stays_in_state w id aadAdmin e s1 :
  WorkspaceAADAdminID (pluginsdk.Id (ResourceData w)) = inr id →
  synapse_sdk.Get aadClient (parse.AdminResourceGroup id) (parse.WorkspaceName id) (remote w)
    = ((aadAdmin, Some e), s1) →
  utils.ResponseWasNotFound (synapse_sdk.Response aadAdmin) = true →
  pluginsdk.Id (ResourceData (snd (AADAdminRead w))) = pluginsdk.Id (ResourceData w)
  ∧ (¬ gone w → ¬ gone (snd (AADAdminRead w)))
  ∧ (synapse_sdk.AadAdminProperties_ aadAdmin = None →
     fst (AADAdminRead w) = Panic nil_dereference)
  ∧ (synapse_sdk.AadAdminProperties_ aadAdmin ≠ None →
     fst (AADAdminRead w) = Return None).
Proof.
  intros Hid Hget Hnf.
  pose proof (AADAdminRead_keeps_Id w) as Hkeep.
  split; [exact Hkeep|]. split; [unfold gone; now rewrite Hkeep|].
  unfold synapse.resourceSynapseWorkspaceAADAdminRead. run.
  rewrite Hid, Hget. simpl. rewrite Hnf. simpl.
  destruct (synapse_sdk.AadAdminProperties_ aadAdmin); simpl; split; congruence.
Qed.

(** C2 (the Synapse half, as the code has it): the Synapse Read takes the
    admin properties of the response without a nil check.  When the Get is
    accepted (it succeeded, or failed with "not found") and the response has
    no properties, the function panics on the nil dereference, after having
    set [synapse_workspace_id]. *)
Theorem AADAdminRead_nil_properties_panics w id aadAdmin e s1 :
  WorkspaceAADAdminID (pluginsdk.Id (ResourceData w)) = inr id →
  synapse_sdk.Get aadClient (parse.AdminResourceGroup id) (parse.WorkspaceName id) (remote w)
    = ((aadAdmin, e), s1) →
  e = None ∨ utils.ResponseWasNotFound (synapse_sdk.Response aadAdmin) = true →
  synapse_sdk.AadAdminProperties_ aadAdmin = None →
  ∃ x,
    AADAdminRead w =
      (Panic nil_dereference,
       {| remote := s1; calls := calls w ++ [x];
          ResourceData :=
            pluginsdk.Set_ "synapse_workspace_id"
              (WorkspaceId_ID (parse.NewWorkspaceID (parse.AdminSubscriptionId id)
                                 (parse.AdminResourceGroup id) (parse.WorkspaceName id)))
              (ResourceData w) |}).
Proof.
  intros Hid Hget Hok Hnil.
  unfold synapse.resourceSynapseWorkspaceAADAdminRead. run.
  rewrite Hid, Hget. simpl. rewrite Hnil.
  destruct Hok as [->|Hnf]; [|rewrite Hnf; destruct e]; simpl;
    eexists; reflexivity.
Qed.

(** The fields of the configuration as the Synapse create-or-update, which
    ends in a Read, leaves them, when the remote returns the properties it
    was sent. *)
Lemma AADAdminCreate_then_Read w workspace tenant login object workspaceId future s1 s2
    resp s3 :
  let d := ResourceData w in
  pluginsdk.Get "synapse_workspace_id" d = Some (Prim (AnyString workspace)) →
  pluginsdk.Get "tenant_id" d = Some (Prim (AnyString tenant)) →
  pluginsdk.Get "login" d = Some (Prim (AnyString login)) →
  pluginsdk.Get "object_id" d = Some (Prim (AnyString object)) →
  WorkspaceID workspace = inr workspaceId →
  let info :=
    {| synapse_sdk.Response := None;
       synapse_sdk.AadAdminProperties_ := Some
         {| synapse_sdk.TenantID := Some tenant;
            synapse_sdk.Login := Some login;
            synapse_sdk.AdministratorType := Some "ActiveDirectory";
            synapse_sdk.Sid := Some object |} |} in
  let id := parse.NewWorkspaceAADAdminID (parse.SubscriptionId workspaceId)
              (parse.ResourceGroup workspaceId) (parse.Name workspaceId)
              "activeDirectory" in
  synapse_sdk.CreateOrUpdate aadClient (parse.ResourceGroup workspaceId)
    (parse.Name workspaceId) info (remote w) = ((future, None), s1) →
  synapse_sdk.WaitForCompletionRef aadClient future s1 = (None, s2) →
  WorkspaceAADAdminID (WorkspaceAADAdminId_ID id) = inr id →
  synapse_sdk.Get aadClient (parse.ResourceGroup workspaceId) (parse.Name workspaceId) s2
    = (({| synapse_sdk.Response := resp;
           synapse_sdk.AadAdminProperties_ := synapse_sdk.AadAdminProperties_ info |},
        None), s3) →
  WorkspaceId_ID (parse.NewWorkspaceID (parse.SubscriptionId workspaceId)
                    (parse.ResourceGroup workspaceId) (parse.Name workspaceId))
    = workspace →
  ∃ w', AADAdminCreateUpdate w = (Return None, w')
    ∧ pluginsdk.Id (ResourceData w') = WorkspaceAADAdminId_ID id
    ∧ pluginsdk.Get "synapse_workspace_id" (ResourceData w')
        = Some (Prim (AnyString workspace))
    ∧ pluginsdk.Get "tenant_id" (ResourceData w') = Some (Prim (AnyString tenant))
    ∧ pluginsdk.Get "login" (ResourceData w') = Some (Prim (AnyString login))
    ∧ pluginsdk.Get "object_id" (ResourceData w') = Some (Prim (AnyString object)).
Proof.
  intros d Hworkspace Htenant Hlogin Hobject Hparse info id Hcreate Hwait Hid Hget Hfmt.
  unfold synapse.resourceSynapseWorkspaceAADAdminCreateUpdate,
    synapse.resourceSynapseWorkspaceAADAdminRead. run.
  subst d. rewrite Hworkspace, Hparse. simpl. rewrite Htenant, Hlogin, Hobject.
  unfold utils.String. simpl. fold info. rewrite Hcreate. simpl. rewrite Hwait. simpl.
  fold id. rewrite Hid. simpl. rewrite Hget. simpl. rewrite Hfmt.
  eexists; split; [reflexivity|]. simpl.
  unfold pluginsdk.Get, pluginsdk.Set_ptr, pluginsdk.Set_; simpl.
  repeat split; now simplify_map_eq.
Qed.

(** *** Both resources *)

(** The Synapse create-or-update starts with the remote create-or-update,
    whatever the remote holds. *)
Lemma AADAdminCreateUpdate_first_request w workspace tenant login object workspaceId :
  pluginsdk.Get "synapse_workspace_id" (ResourceData w)
    = Some (Prim (AnyString workspace)) →
  pluginsdk.Get "tenant_id" (ResourceData w) = Some (Prim (AnyString tenant)) →
  pluginsdk.Get "login" (ResourceData w) = Some (Prim (AnyString login)) →
  pluginsdk.Get "object_id" (ResourceData w) = Some (Prim (AnyString object)) →
  WorkspaceID workspace = inr workspaceId →
  ∃ x rest,
    new_calls w (snd (AADAdminCreateUpdate w)) = x :: rest
    ∧ call x = WorkspaceAadAdmins_CreateOrUpdate (parse.ResourceGroup workspaceId)
                 (parse.Name workspaceId)
                 {| synapse_sdk.Response := None;
                    synapse_sdk.AadAdminProperties_ := Some
                      {| synapse_sdk.TenantID := Some tenant;
                         synapse_sdk.Login := Some login;
                         synapse_sdk.AdministratorType := Some "ActiveDirectory";
                         synapse_sdk.Sid := Some object |} |}.
Proof.
  clear client logAnalyticsClient sharedKeyClient subscriptionId ID
    LogAnalyticsWorkspaceID tags_Expand metadata_Decode ParseManagedEnvironmentID
    location_Normalize tags_Flatten metadata_Encode.
  intros Hworkspace Htenant Hlogin Hobject Hparse.
  unfold synapse.resourceSynapseWorkspaceAADAdminCreateUpdate,
    synapse.resourceSynapseWorkspaceAADAdminRead. run.
  rewrite Hworkspace, Hparse. simpl. rewrite Htenant, Hlogin, Hobject.
  unfold utils.String. simpl.
  repeat step; rewrite <- ?app_assoc; simpl; rewrite new_calls_more;
    eexists _, _; split; reflexivity.
Qed.

(** C3 (as amended): the Container App Environment Create begins with an
    existence check.  When the Get does not answer "not found", Create
    fails without any further request: with the import-required error when
    the Get succeeded, with the wrapped error of the check when the Get
    failed otherwise; the remote create is never reached.  The Synapse
    create-or-update has no such check: its first request is the remote
    create-or-update. *)
Theorem Create_existence_check
    (w : World S) cfg existing e s1
    (wa : World S) workspace tenant login object workspaceId :
  (* the Container App Environment *)
  metadata_Decode (ResourceData w) = inr cfg →
  let id := NewManagedEnvironmentID subscriptionId (ResourceGroup cfg)
              (containerapps.Name cfg) in
  Get client id (remote w) = ((existing, e), s1) →
  response.WasNotFound (HttpResponse existing) = false →
  (* the Synapse AAD admin *)
  pluginsdk.Get "synapse_workspace_id" (ResourceData wa)
    = Some (Prim (AnyString workspace)) →
  pluginsdk.Get "tenant_id" (ResourceData wa) = Some (Prim (AnyString tenant)) →
  pluginsdk.Get "login" (ResourceData wa) = Some (Prim (AnyString login)) →
  pluginsdk.Get "object_id" (ResourceData wa) = Some (Prim (AnyString object)) →
  WorkspaceID workspace = inr workspaceId →
  let w1 := after_request w s1
              {| call := ManagedEnvironments_Get id; err := e; not_found := false |} in
  (Create_Func w =
     (Return (Some match e with
                   | Some _ => Errorf "checking for presence of existing %s: %+v"
                                 [fmt_id id; ArgError e]
                   | None => ImportAsExistsError "azurerm_container_app_environment"
                               (ID id)
                   end), w1)
   ∧ new_calls w w1
       = [{| call := ManagedEnvironments_Get id; err := e; not_found := false |}]
   ∧ ∀ x i m, In x (new_calls w w1) →
       call x ≠ ManagedEnvironments_CreateOrUpdateThenPoll i m)
  ∧ (∃ x rest,
       new_calls wa (snd (AADAdminCreateUpdate wa)) = x :: rest
       ∧ call x = WorkspaceAadAdmins_CreateOrUpdate (parse.ResourceGroup workspaceId)
                    (parse.Name workspaceId)
                    {| synapse_sdk.Response := None;
                       synapse_sdk.AadAdminProperties_ := Some
                         {| synapse_sdk.TenantID := Some tenant;
                            synapse_sdk.Login := Some login;
                            synapse_sdk.AdministratorType := Some "ActiveDirectory";
                            synapse_sdk.Sid := Some object |} |}).
Proof.
  intros. split.
  - eapply Create_found; eassumption.
  - eapply AADAdminCreateUpdate_first_request; eassumption.
Qed.


(** C7: every operation of both resources has a timeout between 5 and 30
    minutes: Read has 5 minutes, Create, Update and Delete have 30. *)
Theorem timeouts_between_5_and_30_minutes (r : ContainerAppEnvironmentResource) :
  let within (t : time.Duration) := (5 * time.Minute <= t <= 30 * time.Minute)%Z in
  let create := containerapps.Create client logAnalyticsClient sharedKeyClient
                  subscriptionId ID LogAnalyticsWorkspaceID tags_Expand metadata_Decode r in
  let read := containerapps.Read client ParseManagedEnvironmentID location_Normalize
                tags_Flatten metadata_Encode r in
  let update := containerapps.Update client ParseManagedEnvironmentID tags_Expand
                  metadata_Decode r in
  let delete := containerapps.Delete client ParseManagedEnvironmentID r in
  let admin := synapse.resourceSynapseWorkspaceAADAdmin aadClient WorkspaceID
                 WorkspaceId_ID WorkspaceAADAdminID WorkspaceAADAdminId_ID in
  (sdk.Timeout create = 30 * time.Minute ∧ sdk.Timeout read = 5 * time.Minute
   ∧ sdk.Timeout update = 30 * time.Minute ∧ sdk.Timeout delete = 30 * time.Minute)
  ∧ (∃ timeouts, schema.Timeouts admin = Some timeouts
       ∧ pluginsdk.Create timeouts = Some (30 * time.Minute)
       ∧ pluginsdk.Read timeouts = Some (5 * time.Minute)
       ∧ pluginsdk.Update timeouts = Some (30 * time.Minute)
       ∧ pluginsdk.Delete timeouts = Some (30 * time.Minute))
  ∧ Forall within [sdk.Timeout create; sdk.Timeout read; sdk.Timeout update;
                   sdk.Timeout delete]
  ∧ (∀ timeouts t, schema.Timeouts admin = Some timeouts →
       In (Some t) [pluginsdk.Create timeouts; pluginsdk.Read timeouts;
                    pluginsdk.Update timeouts; pluginsdk.Delete timeouts] →
       within t)
  ∧ (30 * time.Minute <= time.int64_max)%Z.
Proof.
  cbv zeta. split; [repeat split|]. split; [eexists; repeat split|].
  split; [|split].
  - repeat constructor; cbn; unfold time.Minute, time.Second, time.Millisecond,
      time.Microsecond, time.Nanosecond; lia.
  - intros timeouts t [= <-] Hin. cbn in Hin.
    unfold pluginsdk.DefaultTimeout in Hin.
    destruct Hin as [Ht|[Ht|[Ht|[Ht|[]]]]]; injection Ht as <-;
      unfold time.Minute, time.Second, time.Millisecond, time.Microsecond,
        time.Nanosecond; lia.
  - unfold time.int64_max, time.Minute, time.Second, time.Millisecond,
      time.Microsecond, time.Nanosecond. lia.
Qed.


End Resources.

(** * The lemmas at work on the in-memory API *)

Section Witnesses.
Import inmemory scenario.

(** Read after a successful create: the workspace id comes from the
    configuration. *)
Lemma Read_workspace_id_from_config_witness :
  containerapps.LogAnalyticsWorkspaceId
    (containerapps.Read_workspace logsId
       (containerapps.Read_flatten location_Normalize tags_Flatten env1
          (fst (fst (managedenvironments.Get client env1 (remote (created "" true)))))))
    = logsId
  ∧ fst (Read_Func (created "" true)) = Return None.
Proof.
  destruct (Read_workspace_id_from_config client ParseManagedEnvironmentID
              location_Normalize tags_Flatten metadata_Encode
              (created "" true) env1
              (fst (fst (managedenvironments.Get client env1 (remote (created "" true)))))
              (remote (created "" true)) logsId) as (Hrun & _ & Hfield & _).
  - vm_compute; reflexivity.
  - vm_compute; reflexivity.
  - vm_compute; reflexivity.
  - split; [exact Hfield|]. unfold Read_Func. rewrite Hrun. vm_compute; reflexivity.
Defined.

(** A second create of an environment that exists asks for an import; the
    create of an admin that exists goes to the remote all the same. *)
Lemma Create_existence_check_witness :
  (fst (Create_Func recreate)
     = Return (Some (ImportAsExistsError "azurerm_container_app_environment"
                       (ID env1)))
   ∧ call <$> calls (snd (Create_Func recreate)) = [ManagedEnvironments_Get env1])
  ∧ head (call <$> calls (snd (AADAdminCreateUpdate adminTaken)))
    = Some (WorkspaceAadAdmins_CreateOrUpdate "rg1" "ws1"
              {| synapse_sdk.Response := None;
                 synapse_sdk.AadAdminProperties_ := Some adminProperties |}).
Proof.
  destruct (Create_existence_check client logAnalyticsClient sharedKeyClient
              subscriptionId ID LogAnalyticsWorkspaceID tags_Expand metadata_Decode
              aadAdminsClient WorkspaceID WorkspaceId_ID WorkspaceAADAdminID
              WorkspaceAADAdminId_ID
              recreate (decoded "" true)
              (fst (fst (managedenvironments.Get client env1 (remote recreate))))
              None (remote recreate)
              adminTaken workspace1
              "00000000-0000-0000-0000-000000000002" "admin@example.com"
              "00000000-0000-0000-0000-000000000001" workspaceId1)
    as ((Hrun & _ & _) & _); [vm_compute; reflexivity ..|].
  split.
  - unfold Create_Func. rewrite Hrun. split; vm_compute; reflexivity.
  - vm_compute; reflexivity.
Defined.

(** A create without subnet: the request carries the empty
    VnetConfiguration although the internal load balancer was asked for. *)
Lemma Create_vnet_configuration_witness :
  In (ManagedEnvironments_CreateOrUpdateThenPoll env1 bareRequest)
     (call <$> calls (created "" true))
  ∧ ∃ props, managedenvironments.Properties bareRequest = Some props
      ∧ managedenvironments.VnetConfiguration_ props
          = Some managedenvironments.VnetConfiguration_zero.
Proof.
  split; [vm_compute; do 3 right; left; reflexivity|].
  destruct (Create_vnet_configuration client logAnalyticsClient sharedKeyClient
              subscriptionId ID LogAnalyticsWorkspaceID tags_Expand metadata_Decode
              (plan "" true) (decoded "" true)
              {| call := ManagedEnvironments_CreateOrUpdateThenPoll env1 bareRequest;
                 err := None; not_found := false |}
              env1 bareRequest) as (props & vnet & Hprops & Hvnet & Hempty & _).
  - vm_compute; reflexivity.
  - vm_compute; do 3 right; left; reflexivity.
  - reflexivity.
  - exists props. split; [exact Hprops|]. rewrite Hvnet, (Hempty eq_refl). reflexivity.
Defined.

(** An update after the tags were edited: the tags are replaced, the rest
    of the fetched model is submitted as it was. *)
Lemma Update_changes_only_tags_witness :
  In (ManagedEnvironments_CreateOrUpdateThenPoll env1 retaggedRequest)
     (call <$> new_calls (retagged (refreshed subnet1 true))
                 (snd (Update_Func (retagged (refreshed subnet1 true)))))
  ∧ managedenvironments.Tags retaggedRequest = Some {[ "env" := "prod" ]}
  ∧ ∃ model,
      managedenvironments.Model
        (fst (fst (managedenvironments.Get client env1
                     (remote (retagged (refreshed subnet1 true))))))
        = Some model
      ∧ managedenvironments.Location retaggedRequest = managedenvironments.Location model
      ∧ managedenvironments.Properties retaggedRequest
          = managedenvironments.Properties model.
Proof.
  split; [vm_compute; right; left; reflexivity|].
  split; [reflexivity|].
  destruct (Update_changes_only_tags client ParseManagedEnvironmentID tags_Expand
              metadata_Decode (retagged (refreshed subnet1 true))) as (Honly & _).
  destruct (Honly {| call := ManagedEnvironments_CreateOrUpdateThenPoll env1 retaggedRequest;
                     err := None; not_found := false |}
              env1 retaggedRequest)
    as (state & existing & model & s1 & _ & Hget & Hmodel & Hloc & _ & Hprops & _).
  - vm_compute; right; left; reflexivity.
  - reflexivity.
  - exists model. rewrite Hget. repeat split; assumption.
Defined.

(** An update with nothing to change: the in-memory remote is handed back
    the environment it holds and stays as it is. *)
Lemma Update_no_change_resubmits_fetched_model_witness :
  fst (Update_Func (unchanged (refreshed subnet1 true))) = Return None
  ∧ remote (snd (Update_Func (unchanged (refreshed subnet1 true))))
    = remote (unchanged (refreshed subnet1 true))
  ∧ call <$> new_calls (unchanged (refreshed subnet1 true))
               (snd (Update_Func (unchanged (refreshed subnet1 true))))
      = [ManagedEnvironments_Get env1;
         ManagedEnvironments_CreateOrUpdateThenPoll env1
           (stored (unchanged (refreshed subnet1 true)))].
Proof.
  set (w := unchanged (refreshed subnet1 true)).
  destruct (Update_no_change_resubmits_fetched_model client ParseManagedEnvironmentID
              tags_Expand metadata_Decode w) as (_ & Hresubmits).
  - vm_compute; reflexivity.
  - destruct (Hresubmits env1
                (match metadata_Decode (ResourceData w) with
                 | inr state => state
                 | inl _ => containerapps.zero
                 end)
                (fst (fst (managedenvironments.Get client env1 (remote w))))
                (stored w) (remote w)) as (Hrun & Hsame);
      [vm_compute; reflexivity ..|].
    destruct Hsame as (Hout & Hremote); [vm_compute; reflexivity|].
    split; [exact Hout|]. split; [exact Hremote|].
    unfold Update_Func. rewrite Hrun. vm_compute; reflexivity.
Defined.

(** The admin was deleted outside Terraform: the Read panics and the
    resource stays in state. *)
Lemma AADAdminRead_not_found_stays_in_state_witness :
  fst (AADAdminRead adminAbsent) = Panic nil_dereference
  ∧ ¬ gone (snd (AADAdminRead adminAbsent))
  ∧ not_found <$> calls (snd (AADAdminRead adminAbsent)) = [true].
Proof.
  destruct (AADAdminRead_not_found_stays_in_state aadAdminsClient WorkspaceId_ID
              WorkspaceAADAdminID adminAbsent adminId1
              {| synapse_sdk.Response := notFound;
                 synapse_sdk.AadAdminProperties_ := None |}
              (External "workspaceaadadmins" "404 Not Found")
              (remote adminAbsent)) as (_ & Hstays & Hpanic & _).
  - vm_compute; reflexivity.
  - vm_compute; reflexivity.
  - vm_compute; reflexivity.
  - split; [exact (Hpanic eq_refl)|]. split.
    + apply Hstays. unfold gone. vm_compute. discriminate.
    + vm_compute; reflexivity.
Defined.

(** The remote returns an admin record without properties: the Read
    panics. *)
Lemma AADAdminRead_nil_properties_panics_witness :
  fst (AADAdminRead adminBare) = Panic nil_dereference
  ∧ err <$> calls (snd (AADAdminRead adminBare)) = [None].
Proof.
  destruct (AADAdminRead_nil_properties_panics aadAdminsClient WorkspaceId_ID
              WorkspaceAADAdminID adminBare adminId1
              {| synapse_sdk.Response := ok; synapse_sdk.AadAdminProperties_ := None |}
              None (remote adminBare)) as (x & Hrun).
  - vm_compute; reflexivity.
  - vm_compute; reflexivity.
  - left; reflexivity.
  - reflexivity.
  - split; [unfold AADAdminRead; rewrite Hrun; reflexivity|].
    vm_compute; reflexivity.
Defined.



(** C3, against the claim as stated: the Synapse create-or-update sends the
    remote create although the admin exists, and succeeds. *)
Lemma AADAdminCreate_skips_existence_check :
  aadAdmins (remote adminTaken) !! ("rg1", "ws1") = Some adminProperties
  ∧ fst (AADAdminCreateUpdate adminTaken) = Return None
  ∧ call <$> calls (snd (AADAdminCreateUpdate adminTaken))
      = [WorkspaceAadAdmins_CreateOrUpdate "rg1" "ws1"
           {| synapse_sdk.Response := None;
              synapse_sdk.AadAdminProperties_ := Some adminProperties |};
         WorkspaceAadAdmins_WaitForCompletionRef;
         WorkspaceAadAdmins_Get "rg1" "ws1"].
Proof. repeat split; vm_compute; reflexivity. Qed.

End Witnesses.

(** * Further properties of the two resources *)

Section MoreProperties.
Import managedenvironments containerapps.
#[local] Set Default Proof Using "Type".
Context {S : Type}.
Variable client : ManagedEnvironmentsClient S.
Variable logAnalyticsClient : operationalinsights.WorkspacesClient S.
Variable sharedKeyClient : operationalinsights.SharedKeysClient S.
Variable subscriptionId : string.
Variable ID : ManagedEnvironmentId -> string.
Variable ParseManagedEnvironmentID : string -> error + ManagedEnvironmentId.
Variable LogAnalyticsWorkspaceID
  : string -> error + loganalyticsParse.LogAnalyticsWorkspaceId.
Variable location_Normalize : string -> string.
Variable tags_Expand : gmap string any -> option (gmap string string).
Variable tags_Flatten : option (gmap string string) -> gmap string any.
Variable metadata_Decode : pluginsdk.ResourceData -> error + ContainerAppEnvironmentModel.
Variable metadata_Encode
  : ContainerAppEnvironmentModel -> pluginsdk.ResourceData ->
    option error * pluginsdk.ResourceData.
Context {Future : Type}.
Variable aadClient : synapse_sdk.WorkspaceAadAdminsClient S Future.
Variable WorkspaceID : string -> error + parse.WorkspaceId.
Variable WorkspaceId_ID : parse.WorkspaceId -> string.
Variable WorkspaceAADAdminID : string -> error + parse.WorkspaceAADAdminId.
Variable WorkspaceAADAdminId_ID : parse.WorkspaceAADAdminId -> string.

Local Abbreviation Create_Func :=
  (Create_Func client logAnalyticsClient sharedKeyClient subscriptionId ID
     LogAnalyticsWorkspaceID tags_Expand metadata_Decode).
Local Abbreviation Read_Func :=
  (Read_Func client ParseManagedEnvironmentID location_Normalize tags_Flatten
     metadata_Encode).
Local Abbreviation Update_Func :=
  (Update_Func client ParseManagedEnvironmentID tags_Expand metadata_Decode).
Local Abbreviation Delete_Func := (Delete_Func client ParseManagedEnvironmentID).
Local Abbreviation AADAdminCreateUpdate :=
  (synapse.resourceSynapseWorkspaceAADAdminCreateUpdate aadClient
     WorkspaceID WorkspaceId_ID WorkspaceAADAdminID WorkspaceAADAdminId_ID).
Local Abbreviation AADAdminRead :=
  (synapse.resourceSynapseWorkspaceAADAdminRead aadClient
     WorkspaceId_ID WorkspaceAADAdminID).
Local Abbreviation AADAdminDelete :=
  (synapse.resourceSynapseWorkspaceAADAdminDelete aadClient WorkspaceAADAdminID).

(** Forgets the collaborators a statement does not mention. *)
Ltac forget_unused :=
  repeat match goal with
         | x : _ |- _ => clear x
         end.

(** *** Create *)

(** X1: Create stores the identifier exactly when it returns nil.  On
    success the ResourceData is the one it was given with the Id of the
    environment set; on every error and on a panic the ResourceData is
    untouched. *)
Theorem Create_sets_Id_only_on_success w :
  (fst (Create_Func w) = Return None →
   ∃ cfg, metadata_Decode (ResourceData w) = inr cfg
     ∧ ResourceData (snd (Create_Func w))
       = pluginsdk.SetId
           (ID (NewManagedEnvironmentID subscriptionId (ResourceGroup cfg)
                  (containerapps.Name cfg)))
           (ResourceData w))
  ∧ (fst (Create_Func w) ≠ Return None →
     ResourceData (snd (Create_Func w)) = ResourceData w).
Proof.
  forget_unused.
  destruct (Create_Func w) as [out w'] eqn:Hrun. revert Hrun.
  unfold containerapps.Create_Func. run.
  repeat step; intros [= <- <-]; simpl; split; intros Hout;
    try discriminate Hout; try contradiction; try reflexivity.
  all: eexists; split; reflexivity.
Qed.

(** X2: a request to the remote create is always the fourth request of
    Create, after an existence check answered "not found" and two lookups
    that succeeded, all for the identifiers built from the configuration.  It
    carries the configured location, name and tags, the destination
    "log-analytics", and a customer ID and a shared key that are not nil. *)
Theorem Create_request_credentials w x i m :
  In x (new_calls w (snd (Create_Func w))) →
  call x = ManagedEnvironments_CreateOrUpdateThenPoll i m →
  ∃ cfg logs g customerID sharedKey vnet,
    metadata_Decode (ResourceData w) = inr cfg
    ∧ LogAnalyticsWorkspaceID (LogAnalyticsWorkspaceId cfg) = inr logs
    ∧ i = NewManagedEnvironmentID subscriptionId (ResourceGroup cfg)
            (containerapps.Name cfg)
    ∧ new_calls w (snd (Create_Func w))
        = [g;
           {| call := Workspaces_Get (loganalyticsParse.ResourceGroup logs)
                        (loganalyticsParse.WorkspaceName logs);
              err := None; not_found := false |};
           {| call := SharedKeys_GetSharedKeys (loganalyticsParse.ResourceGroup logs)
                        (loganalyticsParse.WorkspaceName logs);
              err := None; not_found := false |};
           x]
    ∧ call g = ManagedEnvironments_Get i ∧ not_found g = true
    ∧ m = {| managedenvironments.Location := containerapps.Location cfg;
             managedenvironments.Name := Some (containerapps.Name cfg);
             Properties := Some
               {| AppLogsConfiguration_ := Some
                    {| Destination := Some "log-analytics";
                       LogAnalyticsConfiguration_ := Some
                         {| CustomerId := Some customerID;
                            SharedKey := Some sharedKey |} |};
                  managedenvironments.DefaultDomain := None;
                  managedenvironments.StaticIP := None;
                  VnetConfiguration_ := Some vnet |};
             SystemData := None;
             managedenvironments.Tags := tags_Expand (containerapps.Tags cfg) |}.
Proof.
  forget_unused.
  destruct (Create_Func w) as [out w'] eqn:Hrun. revert Hrun.
  unfold containerapps.Create_Func. run.
  repeat step; intros [= <- <-]; requests.
  all: intros [= <- <-].
  all: do 6 eexists; repeat split; try eassumption; reflexivity.
Qed.


(** *** Read, Update and Delete of the Container App Environment *)

(** X4: both Reads only read.  When the identifier does not parse they
    send nothing and leave the remote as it is; otherwise their one request
    is the Get for the parsed identifier and the remote is left as that Get
    left it. *)
Theorem Reads_send_one_Get w wa :
  match ParseManagedEnvironmentID (pluginsdk.Id (ResourceData w)) with
  | inl _ => new_calls w (snd (Read_Func w)) = [] ∧ remote (snd (Read_Func w)) = remote w
  | inr id =>
      call <$> new_calls w (snd (Read_Func w)) = [ManagedEnvironments_Get id]
      ∧ remote (snd (Read_Func w)) = snd (Get client id (remote w))
  end
  ∧ match WorkspaceAADAdminID (pluginsdk.Id (ResourceData wa)) with
    | inl _ =>
        new_calls wa (snd (AADAdminRead wa)) = []
        ∧ remote (snd (AADAdminRead wa)) = remote wa
    | inr id =>
        call <$> new_calls wa (snd (AADAdminRead wa))
          = [WorkspaceAadAdmins_Get (parse.AdminResourceGroup id) (parse.WorkspaceName id)]
        ∧ remote (snd (AADAdminRead wa))
          = snd (synapse_sdk.Get aadClient (parse.AdminResourceGroup id)
                   (parse.WorkspaceName id) (remote wa))
    end.
Proof.
  forget_unused.
  split.
  - destruct (Read_Func w) as [out w'] eqn:Hrun. revert Hrun.
    unfold containerapps.Read_Func. run.
    repeat step; intros [= <- <-]; simpl;
      rewrite ?new_calls_refl, ?new_calls_same, ?new_calls_more; split; reflexivity.
  - destruct (AADAdminRead wa) as [out w'] eqn:Hrun. revert Hrun.
    unfold synapse.resourceSynapseWorkspaceAADAdminRead. run.
    repeat step; intros [= <- <-]; simpl;
      rewrite ?new_calls_refl, ?new_calls_same, ?new_calls_more; split; reflexivity.
Qed.

(** X5: none of the functions that create, read or update ever sends a
    delete request, and the two Delete functions send no other write. *)
Theorem only_Delete_deletes (w : World S) :
  let quiet (f : GoFunc S) :=
    forallb (λ x, negb (is_delete (call x))) (new_calls w (snd (f w))) = true in
  let deletes_only (f : GoFunc S) :=
    forallb (λ x, is_delete (call x) || is_wait (call x))
      (new_calls w (snd (f w))) = true in
  quiet Create_Func ∧ quiet Read_Func ∧ quiet Update_Func
  ∧ quiet AADAdminCreateUpdate ∧ quiet AADAdminRead
  ∧ deletes_only Delete_Func ∧ deletes_only AADAdminDelete.
Proof.
  forget_unused.
  cbv zeta. repeat apply conj.
  - destruct (Create_Func w) as [out w'] eqn:Hrun. revert Hrun.
    unfold containerapps.Create_Func. run.
    repeat step; intros [= <- <-]; simpl; rewrite <- ?app_assoc; simpl;
      rewrite ?new_calls_refl, ?new_calls_same, ?new_calls_more; reflexivity.
  - destruct (Read_Func w) as [out w'] eqn:Hrun. revert Hrun.
    unfold containerapps.Read_Func. run.
    repeat step; intros [= <- <-]; simpl; rewrite <- ?app_assoc; simpl;
      rewrite ?new_calls_refl, ?new_calls_same, ?new_calls_more; reflexivity.
  - destruct (Update_Func w) as [out w'] eqn:Hrun. revert Hrun.
    unfold containerapps.Update_Func. run.
    repeat step; intros [= <- <-]; simpl; rewrite <- ?app_assoc; simpl;
      rewrite ?new_calls_refl, ?new_calls_same, ?new_calls_more; reflexivity.
  - destruct (AADAdminCreateUpdate w) as [out w'] eqn:Hrun. revert Hrun.
    unfold synapse.resourceSynapseWorkspaceAADAdminCreateUpdate,
      synapse.resourceSynapseWorkspaceAADAdminRead. run.
    repeat step; intros [= <- <-]; simpl; rewrite <- ?app_assoc; simpl;
      rewrite ?new_calls_refl, ?new_calls_same, ?new_calls_more; reflexivity.
  - destruct (AADAdminRead w) as [out w'] eqn:Hrun. revert Hrun.
    unfold synapse.resourceSynapseWorkspaceAADAdminRead. run.
    repeat step; intros [= <- <-]; simpl; rewrite <- ?app_assoc; simpl;
      rewrite ?new_calls_refl, ?new_calls_same, ?new_calls_more; reflexivity.
  - destruct (Delete_Func w) as [out w'] eqn:Hrun. revert Hrun.
    unfold containerapps.Delete_Func. run.
    repeat step; intros [= <- <-]; simpl; rewrite <- ?app_assoc; simpl;
      rewrite ?new_calls_refl, ?new_calls_same, ?new_calls_more; reflexivity.
  - destruct (AADAdminDelete w) as [out w'] eqn:Hrun. revert Hrun.
    unfold synapse.resourceSynapseWorkspaceAADAdminDelete. run.
    repeat step; intros [= <- <-]; simpl; rewrite <- ?app_assoc; simpl;
      rewrite ?new_calls_refl, ?new_calls_same, ?new_calls_more; reflexivity.
Qed.

(** X6: Delete of the Container App Environment, in full.  An identifier
    that does not parse comes back as the parser's own error and nothing is
    sent.  Otherwise the one request is the remote delete; its error, a "not
    found" included, comes back wrapped, and the ResourceData is left as it
    was in every case. *)
Theorem Delete_run w :
  Delete_Func w =
    match ParseManagedEnvironmentID (pluginsdk.Id (ResourceData w)) with
    | inl err => (Return (Some err), w)
    | inr id =>
        let result := DeleteThenPoll client id (remote w) in
        (Return match fst result with
                | Some e => Some (Errorf "deleting %s: %+v" [fmt_id id; ArgError (Some e)])
                | None => None
                end,
         {| remote := snd result;
            calls := calls w ++ [{| call := ManagedEnvironments_DeleteThenPoll id;
                                    err := fst result; not_found := false |}];
            ResourceData := ResourceData w |})
    end.
Proof.
  forget_unused.
  unfold containerapps.Delete_Func. run.
  destruct (ParseManagedEnvironmentID _) as [perr|id]; [reflexivity|]. simpl.
  destruct (DeleteThenPoll client id (remote w)) as [[e|] s1]; reflexivity.
Qed.

(** X7: Update has no resource-gone path.  Any failure of its Get, a "not
    found" included, ends it with the wrapped error "reading ..."; nothing
    more is sent and the ResourceData keeps its Id. *)
Theorem Update_not_found_is_an_error w id state existing e s1 :
  ParseManagedEnvironmentID (pluginsdk.Id (ResourceData w)) = inr id →
  metadata_Decode (ResourceData w) = inr state →
  Get client id (remote w) = ((existing, Some e), s1) →
  Update_Func w =
    (Return (Some (Errorf "reading %s: %+v" [fmt_id id; ArgError (Some e)])),
     after_request w s1
       {| call := ManagedEnvironments_Get id; err := Some e;
          not_found := response.WasNotFound (HttpResponse existing) |}).
Proof.
  forget_unused.
  intros Hid Hstate Hget. unfold containerapps.Update_Func. run.
  rewrite Hid, Hstate, Hget. reflexivity.
Qed.

(** X8: Update dereferences the fetched model without a nil check.  When
    the Get succeeds with no model, Update panics, whether or not the tags
    have changed, having sent only the Get. *)
Theorem Update_nil_model_panics w id state existing s1 :
  ParseManagedEnvironmentID (pluginsdk.Id (ResourceData w)) = inr id →
  metadata_Decode (ResourceData w) = inr state →
  Get client id (remote w) = ((existing, None), s1) →
  Model existing = None →
  Update_Func w =
    (Panic nil_dereference,
     after_request w s1
       {| call := ManagedEnvironments_Get id; err := None;
          not_found := response.WasNotFound (HttpResponse existing) |}).
Proof.
  forget_unused.
  intros Hid Hstate Hget Hnil. unfold containerapps.Update_Func. run.
  rewrite Hid, Hstate, Hget. simpl.
  destruct (pluginsdk.HasChange "tags" (ResourceData w)); simpl; rewrite Hnil; reflexivity.
Qed.

(** X9: Update never writes to the ResourceData: whatever happens, the
    state that Terraform holds after Update is the one it held before. *)
Theorem Update_keeps_ResourceData w :
  ResourceData (snd (Update_Func w)) = ResourceData w.
Proof.
  forget_unused.
  destruct (Update_Func w) as [out w'] eqn:Hrun. revert Hrun.
  unfold containerapps.Update_Func. run.
  repeat step; intros [= <- <-]; reflexivity.
Qed.

(** X10: the Read of the Container App Environment writes the ResourceData
    all at once or not at all.  After a Read the ResourceData is the one it
    was, or the one it was with the Id cleared (after a "not found", with
    nil returned), or what Encode made of the whole flattened state after a
    successful Get. *)
Theorem Read_writes_all_or_nothing w :
  let d := ResourceData w in
  let d' := ResourceData (snd (Read_Func w)) in
  d' = d
  ∨ (d' = pluginsdk.SetId "" d
     ∧ fst (Read_Func w) = Return None
     ∧ ∃ x e, new_calls w (snd (Read_Func w)) = [x]
              ∧ err x = Some e ∧ not_found x = true)
  ∨ (∃ id existing s1 v,
       ParseManagedEnvironmentID (pluginsdk.Id d) = inr id
       ∧ Get client id (remote w) = ((existing, None), s1)
       ∧ configured_string "log_analytics_workspace_id" d v
       ∧ d' = snd (metadata_Encode
                     (Read_workspace v
                        (Read_flatten location_Normalize tags_Flatten id existing)) d)).
Proof.
  forget_unused.
  cbv zeta. destruct (Read_Func w) as [out w'] eqn:Hrun. revert Hrun.
  unfold containerapps.Read_Func. run.
  repeat step; intros [= <- <-]; simpl.
  all: try (left; reflexivity).
  all: try (right; left; split; [reflexivity|]; split; [reflexivity|];
            rewrite new_calls_more; do 2 eexists; repeat split; reflexivity).
  all: right; right; do 4 eexists;
    (split; [reflexivity|]); (split; [eassumption|]);
    unfold configured_string;
    match goal with H : pluginsdk.Get _ _ = _ |- _ => rewrite H end;
    match goal with H : metadata_Encode _ _ = _ |- _ => rewrite H end;
    split; reflexivity.
Qed.

(** X11: when Decode fails nothing is sent and the ResourceData is not
    touched; Create returns the error of Decode as it is, Update returns it
    wrapped as "decoding: ...". *)
Theorem Decode_failure_sends_nothing w failure :
  metadata_Decode (ResourceData w) = inl failure →
  Create_Func w = (Return (Some failure), w)
  ∧ ∀ id, ParseManagedEnvironmentID (pluginsdk.Id (ResourceData w)) = inr id →
      Update_Func w
        = (Return (Some (Errorf "decoding: %+v" [ArgError (Some failure)])), w).
Proof.
  forget_unused.
  intros Hdecode. split.
  - unfold containerapps.Create_Func. run. rewrite Hdecode. reflexivity.
  - intros id Hid. unfold containerapps.Update_Func. run. rewrite Hid, Hdecode. reflexivity.
Qed.

(** *** The Synapse Workspace AAD Admin *)

(** X12: the Synapse Read writes no attribute outside the schema of the
    resource: an attribute under any other key, the prior state and the Id
    are after the Read what they were before, however the Read ends. *)
Theorem AADAdminRead_writes_only_schema_keys w key :
  key ∉ synapse_schema.Schema.*1 →
  pluginsdk.Get key (ResourceData (snd (AADAdminRead w)))
    = pluginsdk.Get key (ResourceData w)
  ∧ pluginsdk.prior (ResourceData (snd (AADAdminRead w)))
    = pluginsdk.prior (ResourceData w)
  ∧ pluginsdk.Id (ResourceData (snd (AADAdminRead w))) = pluginsdk.Id (ResourceData w).
Proof.
  forget_unused.
  intros Hkey.
  assert (Hne : key ≠ "synapse_workspace_id" ∧ key ≠ "login" ∧ key ≠ "object_id"
                ∧ key ≠ "tenant_id").
  { repeat split; intros ->; apply Hkey; cbn; set_solver. }
  destruct Hne as (Hne1 & Hne2 & Hne3 & Hne4).
  destruct (AADAdminRead w) as [out w'] eqn:Hrun. revert Hrun.
  unfold synapse.resourceSynapseWorkspaceAADAdminRead. run.
  repeat step; intros [= <- <-]; simpl;
    unfold pluginsdk.Get, pluginsdk.Set_ptr, pluginsdk.Set_; simpl;
    rewrite ?lookup_insert_ne by congruence; repeat split; reflexivity.
Qed.

(** X13: a Synapse Read that is given properties returns nil and sets every
    key of the schema: the workspace id rebuilt from the admin identifier,
    [login] from Login, [object_id] from Sid and [tenant_id] from TenantID,
    a nil pointer among them giving the empty string. *)
Theorem AADAdminRead_found w id aadAdmin e s1 props :
  WorkspaceAADAdminID (pluginsdk.Id (ResourceData w)) = inr id →
  synapse_sdk.Get aadClient (parse.AdminResourceGroup id) (parse.WorkspaceName id) (remote w)
    = ((aadAdmin, e), s1) →
  e = None ∨ utils.ResponseWasNotFound (synapse_sdk.Response aadAdmin) = true →
  synapse_sdk.AadAdminProperties_ aadAdmin = Some props →
  let d' := ResourceData (snd (AADAdminRead w)) in
  fst (AADAdminRead w) = Return None
  ∧ pluginsdk.Get "synapse_workspace_id" d'
    = Some (Prim (AnyString
              (WorkspaceId_ID (parse.NewWorkspaceID (parse.AdminSubscriptionId id)
                                 (parse.AdminResourceGroup id) (parse.WorkspaceName id)))))
  ∧ pluginsdk.Get "login" d'
    = Some (Prim (AnyString (utils.NormalizeNilableString (synapse_sdk.Login props))))
  ∧ pluginsdk.Get "object_id" d'
    = Some (Prim (AnyString (utils.NormalizeNilableString (synapse_sdk.Sid props))))
  ∧ pluginsdk.Get "tenant_id" d'
    = Some (Prim (AnyString (utils.NormalizeNilableString (synapse_sdk.TenantID props))))
  ∧ ∀ key, key ∈ synapse_schema.Schema.*1 → is_Some (pluginsdk.Get key d').
Proof.
  forget_unused.
  intros Hid Hget Hok Hprops d'. subst d'.
  unfold synapse.resourceSynapseWorkspaceAADAdminRead. run.
  rewrite Hid, Hget. simpl. rewrite Hprops.
  assert (Hgo : match e with
                | Some _ => utils.ResponseWasNotFound (synapse_sdk.Response aadAdmin)
                | None => true
                end = true).
  { destruct Hok as [->|Hnf]; [reflexivity|]. now destruct e. }
  destruct e as [e|]; simpl in *; rewrite ?Hgo; simpl;
    unfold pluginsdk.Get, pluginsdk.Set_ptr, pluginsdk.Set_; simpl;
    (split; [reflexivity|]);
    (repeat split; [now simplify_map_eq ..|]);
    intros key Hkey; cbn in Hkey;
    repeat (apply elem_of_cons in Hkey as [->|Hkey]; [eexists; now simplify_map_eq|]);
    now apply elem_of_nil in Hkey.
Qed.


(** X15: once the remote create-or-update and the wait have succeeded, the
    Synapse create-or-update is the Read of the resource whose Id is the
    administrator "activeDirectory" of the configured workspace: it ends as
    that Read ends, with its error or its panic, and the Id stays stored. *)
Theorem AADAdminCreateUpdate_then_Read w workspace tenant login object workspaceId
    future s1 s2 :
  pluginsdk.Get "synapse_workspace_id" (ResourceData w)
    = Some (Prim (AnyString workspace)) →
  pluginsdk.Get "tenant_id" (ResourceData w) = Some (Prim (AnyString tenant)) →
  pluginsdk.Get "login" (ResourceData w) = Some (Prim (AnyString login)) →
  pluginsdk.Get "object_id" (ResourceData w) = Some (Prim (AnyString object)) →
  WorkspaceID workspace = inr workspaceId →
  let info :=
    {| synapse_sdk.Response := None;
       synapse_sdk.AadAdminProperties_ := Some
         {| synapse_sdk.TenantID := Some tenant;
            synapse_sdk.Login := Some login;
            synapse_sdk.AdministratorType := Some "ActiveDirectory";
            synapse_sdk.Sid := Some object |} |} in
  let id := parse.NewWorkspaceAADAdminID (parse.SubscriptionId workspaceId)
              (parse.ResourceGroup workspaceId) (parse.Name workspaceId)
              "activeDirectory" in
  synapse_sdk.CreateOrUpdate aadClient (parse.ResourceGroup workspaceId)
    (parse.Name workspaceId) info (remote w) = ((future, None), s1) →
  synapse_sdk.WaitForCompletionRef aadClient future s1 = (None, s2) →
  let w2 :=
    {| remote := s2;
       calls := calls w ++
                [{| call := WorkspaceAadAdmins_CreateOrUpdate
                              (parse.ResourceGroup workspaceId) (parse.Name workspaceId) info;
                    err := None; not_found := false |};
                 {| call := WorkspaceAadAdmins_WaitForCompletionRef;
                    err := None; not_found := false |}];
       ResourceData := pluginsdk.SetId (WorkspaceAADAdminId_ID id) (ResourceData w) |} in
  AADAdminCreateUpdate w = AADAdminRead w2
  ∧ pluginsdk.Id (ResourceData (snd (AADAdminCreateUpdate w))) = WorkspaceAADAdminId_ID id.
Proof.
  forget_unused.
  intros Hworkspace Htenant Hlogin Hobject Hparse info id Hcreate Hwait w2.
  assert (Hrun : AADAdminCreateUpdate w = AADAdminRead w2).
  { unfold synapse.resourceSynapseWorkspaceAADAdminCreateUpdate. run.
    rewrite Hworkspace, Hparse. simpl. rewrite Htenant, Hlogin, Hobject.
    unfold utils.String. simpl. fold info. rewrite Hcreate. simpl. rewrite Hwait. simpl.
    rewrite <- app_assoc. simpl. fold id. fold w2.
    destruct (synapse.resourceSynapseWorkspaceAADAdminRead _ _ _ w2) as [[oerr|msg] w3];
      reflexivity. }
  split; [exact Hrun|].
  rewrite Hrun, AADAdminRead_keeps_Id. reflexivity.
Qed.

(** X16: Delete of the Synapse AAD admin, in full.  An identifier that does
    not parse comes back as the parser's own error and nothing is sent.  A
    failed remote delete comes back wrapped and is not waited for; otherwise
    the wait follows and its error comes back wrapped.  The ResourceData is
    left as it was in every case. *)
Theorem AADAdminDelete_run w :
  AADAdminDelete w =
    match WorkspaceAADAdminID (pluginsdk.Id (ResourceData w)) with
    | inl err => (Return (Some err), w)
    | inr id =>
        let rg := parse.AdminResourceGroup id in
        let ws := parse.WorkspaceName id in
        let deleted := synapse_sdk.Delete aadClient rg ws (remote w) in
        let sent := {| call := WorkspaceAadAdmins_Delete rg ws;
                       err := snd (fst deleted); not_found := false |} in
        match snd (fst deleted) with
        | Some e =>
            (Return (Some (Errorf
               "setting empty Synapse Workspace %q AAD Admin (Resource Group %q): %+v"
               [ArgString ws; ArgString rg; ArgError (Some e)])),
             after_request w (snd deleted) sent)
        | None =>
            let waited :=
              synapse_sdk.WaitForCompletionRef aadClient (fst (fst deleted)) (snd deleted) in
            (Return match fst waited with
                    | Some e => Some (Errorf
                        "waiting on setting empty Synapse Workspace %q AAD Admin (Resource Group %q): %+v"
                        [ArgString ws; ArgString rg; ArgError (Some e)])
                    | None => None
                    end,
             {| remote := snd waited;
                calls := calls w ++
                         [sent; {| call := WorkspaceAadAdmins_WaitForCompletionRef;
                                   err := fst waited; not_found := false |}];
                ResourceData := ResourceData w |})
        end
    end.
Proof.
  forget_unused.
  unfold synapse.resourceSynapseWorkspaceAADAdminDelete. run.
  destruct (WorkspaceAADAdminID _) as [perr|id]; [reflexivity|]. simpl.
  destruct (synapse_sdk.Delete aadClient _ _ _) as [[future [e|]] s1]; simpl;
    [reflexivity|].
  destruct (synapse_sdk.WaitForCompletionRef aadClient future s1) as [[e|] s2]; simpl;
    rewrite <- app_assoc; reflexivity.
Qed.

(** X17: the importer accepts exactly the identifiers that Read and Delete
    can work with.  An identifier it rejects makes Read and Delete return
    the same error before anything is sent; one it accepts makes both of
    them send their first request. *)
Theorem Importer_agrees_with_Read_and_Delete w :
  match synapse_schema.Importer WorkspaceAADAdminID (pluginsdk.Id (ResourceData w)) with
  | Some err =>
      AADAdminRead w = (Return (Some err), w)
      ∧ AADAdminDelete w = (Return (Some err), w)
  | None =>
      new_calls w (snd (AADAdminRead w)) ≠ []
      ∧ new_calls w (snd (AADAdminDelete w)) ≠ []
  end.
Proof.
  forget_unused.
  unfold synapse_schema.Importer.
  destruct (WorkspaceAADAdminID (pluginsdk.Id (ResourceData w))) as [perr|id] eqn:Hid.
  - unfold synapse.resourceSynapseWorkspaceAADAdminRead,
      synapse.resourceSynapseWorkspaceAADAdminDelete. run.
    rewrite Hid. split; reflexivity.
  - split.
    + destruct (AADAdminRead w) as [out w'] eqn:Hrun. revert Hrun.
      unfold synapse.resourceSynapseWorkspaceAADAdminRead. run. rewrite Hid. simpl.
      repeat step; intros [= <- <-]; simpl; rewrite ?new_calls_more; discriminate.
    + destruct (AADAdminDelete w) as [out w'] eqn:Hrun. revert Hrun.
      unfold synapse.resourceSynapseWorkspaceAADAdminDelete. run. rewrite Hid. simpl.
      repeat step; intros [= <- <-]; simpl; rewrite <- ?app_assoc; simpl;
        rewrite ?new_calls_more; discriminate.
Qed.

(** *** The schema of the Container App Environment *)

(** X18: the schema and the model of the Container App Environment name the
    same fields: the keys of Arguments and Attributes are distinct and are
    exactly the [tfschema] tags of the model.  Every attribute is computed
    only, and every argument that this file defines itself forces a new
    resource when it changes. *)
Theorem schema_matches_model (location resource_group_name tags : tf.Schema) :
  let arguments :=
    containerapps_schema.Arguments location resource_group_name tags in
  let attributes := containerapps_schema.Attributes in
  NoDup (arguments.*1 ++ attributes.*1)
  ∧ (∀ key, key ∈ containerapps_schema.tfschema ↔ key ∈ arguments.*1 ++ attributes.*1)
  ∧ length containerapps_schema.tfschema = length (arguments.*1 ++ attributes.*1)
  ∧ Forall (λ kv, tf.computed_only kv.2 = true) attributes
  ∧ Forall (λ kv, containerapps_schema.from_commonschema kv.1 = false →
                  tf.ForceNew kv.2 = true ∧ tf.computed_only kv.2 = false)
      arguments.
Proof.
  forget_unused.
  cbv zeta. split; [|split; [|split; [|split]]].
  - cbn. refine (bool_decide_unpack _ _). vm_compute. exact I.
  - intros key. cbn.
    assert (Heq : (list_to_set containerapps_schema.tfschema : gset string)
                  = list_to_set
                      ((containerapps_schema.Arguments location resource_group_name tags).*1
                       ++ containerapps_schema.Attributes.*1)).
    { cbn. refine (bool_decide_unpack _ _). vm_compute. exact I. }
    rewrite <- !(elem_of_list_to_set (C := gset string)). now rewrite Heq.
  - reflexivity.
  - unfold containerapps_schema.Attributes. repeat constructor.
  - unfold containerapps_schema.Arguments.
    repeat (constructor; [cbn; intros Hcommon; first [discriminate Hcommon | split; reflexivity]|]).
    constructor.
Qed.
End MoreProperties.

(** * The further properties at work *)

Section MoreWitnesses.
Import inmemory scenario cases.

(** A create that succeeds stores the Id; a create that finds the
    environment leaves the ResourceData alone. *)
Lemma Create_sets_Id_only_on_success_witness :
  pluginsdk.Id (ResourceData (created "" true)) = ID env1
  ∧ ResourceData (snd (Create_Func recreate)) = ResourceData recreate.
Proof.
  split.
  - destruct (Create_sets_Id_only_on_success client logAnalyticsClient sharedKeyClient
                subscriptionId ID LogAnalyticsWorkspaceID tags_Expand metadata_Decode
                (plan "" true)) as (Hset & _).
    destruct Hset as (cfg & Hcfg & Hdata); [vm_compute; reflexivity|].
    assert (Hdecoded : cfg = decoded "" true).
    { assert (Hd : metadata_Decode (ResourceData (plan "" true)) = inr (decoded "" true))
        by (vm_compute; reflexivity).
      rewrite Hd in Hcfg. now injection Hcfg as <-. }
    subst cfg. unfold created, Create_Func. rewrite Hdata. reflexivity.
  - destruct (Create_sets_Id_only_on_success client logAnalyticsClient sharedKeyClient
                subscriptionId ID LogAnalyticsWorkspaceID tags_Expand metadata_Decode
                recreate) as (_ & Hkept).
    apply Hkept. vm_compute. discriminate.
Defined.

(** The create of the plan without subnet: four requests, the last one the
    remote create. *)
Lemma Create_request_credentials_witness :
  length (new_calls (plan "" true) (created "" true)) = 4%nat.
Proof.
  destruct (Create_request_credentials client logAnalyticsClient sharedKeyClient
              subscriptionId ID LogAnalyticsWorkspaceID tags_Expand metadata_Decode
              (plan "" true)
              {| call := ManagedEnvironments_CreateOrUpdateThenPoll env1 bareRequest;
                 err := None; not_found := false |}
              env1 bareRequest)
    as (cfg & logs & g & c & k & vnet & _ & _ & _ & Hcalls & _).
  - vm_compute; do 3 right; left; reflexivity.
  - reflexivity.
  - unfold created, Create_Func. rewrite Hcalls. reflexivity.
Defined.


(** An update of an environment that is gone from the remote: an error, and
    the resource stays in state. *)
Lemma Update_not_found_is_an_error_witness :
  fst (Update_Func orphaned)
    = Return (Some (Errorf "reading %s: %+v" [containerapps.fmt_id env1;
                                                ArgError (Some missing)]))
  ∧ pluginsdk.Id (ResourceData (snd (Update_Func orphaned))) = ID env1.
Proof.
  assert (Hrun := Update_not_found_is_an_error client ParseManagedEnvironmentID
                    tags_Expand metadata_Decode orphaned env1
                    (decoded subnet1 true)
                    {| managedenvironments.HttpResponse := notFound;
                       managedenvironments.Model := None |}
                    missing (remote orphaned)).
  unfold Update_Func. rewrite Hrun; [split; vm_compute; reflexivity | vm_compute; reflexivity ..].
Defined.

(** An update against a remote that answers without a model panics. *)
Lemma Update_nil_model_panics_witness :
  fst (hollowUpdate hollow) = Panic nil_dereference.
Proof.
  assert (Hrun := Update_nil_model_panics faulty.hollowClient ParseManagedEnvironmentID
                    tags_Expand metadata_Decode hollow env1
                    (decoded subnet1 true)
                    {| managedenvironments.HttpResponse := ok;
                       managedenvironments.Model := None |} tt).
  unfold hollowUpdate. rewrite Hrun; [reflexivity | vm_compute; reflexivity ..| reflexivity].
Defined.

(** A name of the wrong type: Create and Update stop at Decode. *)
Lemma Decode_failure_sends_nothing_witness :
  Create_Func mistyped = (Return (Some mismatch), mistyped)
  ∧ Update_Func mistyped
    = (Return (Some (Errorf "decoding: %+v" [ArgError (Some mismatch)])), mistyped).
Proof.
  destruct (Decode_failure_sends_nothing client logAnalyticsClient sharedKeyClient
              subscriptionId ID ParseManagedEnvironmentID LogAnalyticsWorkspaceID
              tags_Expand metadata_Decode mistyped mismatch) as (Hcreate & Hupdate).
  - vm_compute; reflexivity.
  - split; [exact Hcreate|]. apply (Hupdate env1). vm_compute; reflexivity.
Defined.

(** A read of the admin that is there: an attribute outside the schema is
    not written. *)
Lemma AADAdminRead_writes_only_schema_keys_witness :
  pluginsdk.Get "administrator_type" (ResourceData (snd (AADAdminRead adminPresent)))
    = None.
Proof.
  destruct (AADAdminRead_writes_only_schema_keys aadAdminsClient WorkspaceId_ID
              WorkspaceAADAdminID adminPresent "administrator_type") as (Hkey & _).
  - cbn. intros Hin.
    repeat (apply elem_of_cons in Hin as [Hin|Hin]; [discriminate Hin|]).
    now apply elem_of_nil in Hin.
  - unfold AADAdminRead. rewrite Hkey. reflexivity.
Defined.

(** A read of the admin that is there sets the object id from Sid. *)
Lemma AADAdminRead_found_witness :
  fst (AADAdminRead adminPresent) = Return None
  ∧ pluginsdk.Get "object_id" (ResourceData (snd (AADAdminRead adminPresent)))
    = Some (Prim (AnyString "00000000-0000-0000-0000-000000000001")).
Proof.
  destruct (AADAdminRead_found aadAdminsClient WorkspaceId_ID WorkspaceAADAdminID
              adminPresent adminId1
              {| synapse_sdk.Response := ok;
                 synapse_sdk.AadAdminProperties_ := Some adminProperties |}
              None (remote adminPresent) adminProperties)
    as (Hout & _ & _ & Hobject & _).
  - vm_compute; reflexivity.
  - vm_compute; reflexivity.
  - left; reflexivity.
  - reflexivity.
  - split; [exact Hout|exact Hobject].
Defined.


(** The admin created from scratch: the Id of the administrator
    "activeDirectory" is stored. *)
Lemma AADAdminCreateUpdate_then_Read_witness :
  pluginsdk.Id (ResourceData (snd (AADAdminCreateUpdate adminNew))) = admin1.
Proof.
  destruct (AADAdminCreateUpdate_then_Read aadAdminsClient WorkspaceID WorkspaceId_ID
              WorkspaceAADAdminID WorkspaceAADAdminId_ID adminNew workspace1
              "00000000-0000-0000-0000-000000000002" "admin@example.com"
              "00000000-0000-0000-0000-000000000001" workspaceId1 tt
              adminStored adminStored) as (_ & Hid).
  - vm_compute; reflexivity.
  - vm_compute; reflexivity.
  - vm_compute; reflexivity.
  - vm_compute; reflexivity.
  - vm_compute; reflexivity.
  - vm_compute; reflexivity.
  - vm_compute; reflexivity.
  - unfold AADAdminCreateUpdate. rewrite Hid. vm_compute; reflexivity.
Defined.

(** With the three shared entries computed only, the schema has 18 distinct
    keys. *)
Lemma schema_matches_model_witness :
  NoDup ((containerapps_schema.Arguments containerapps_schema.computed_string
            containerapps_schema.computed_string containerapps_schema.computed_string).*1
         ++ containerapps_schema.Attributes.*1)
  ∧ tf.ForceNew <$> (list_to_map
                       (containerapps_schema.Arguments containerapps_schema.computed_string
                          containerapps_schema.computed_string
                          containerapps_schema.computed_string)
                     : gmap string tf.Schema) !! "name"
    = Some true.
Proof.
  destruct (schema_matches_model containerapps_schema.computed_string
              containerapps_schema.computed_string containerapps_schema.computed_string)
    as (Hdistinct & _).
  split; [exact Hdistinct|reflexivity].
Defined.
End MoreWitnesses.
